(** * hasagi-cli: the command dispatcher, embedded and verified

    The repository is one script (src/bin/index.ts) and an older variant of
    the same script (src/unnamed/part_000).  Both parse the command line with
    yargs and then run one of the branches [request], [listen], [schema]
    (and [credentials] in the newer script) before calling [process.exit()].

    The branches are glue code around collaborators that live outside the
    repository: the LCU client, the schema generator, Node's [fs], [path],
    [JSON] and [Date].  The embedding keeps that split:
    - every call that reaches a collaborator is an effect of the
      signature [eff]; a branch of the script is a program of the monad
      [prog] over that signature, written in the order of the source;
    - pure library functions the script calls ([path.join], [JSON.parse],
      [JSON.stringify]) are fields of the class [Runtime];
    - [run] executes a program against an arbitrary, stateful handler of the
      effects and returns how the script ended, the trace of the calls it
      made with their answers, and the handler's final state.
    The theorems quantify over every [Runtime] and every handler. *)

From stdpp Require Import base option list strings pretty gmap.
From Stdlib Require Import ZArith Ascii String.

Set Warnings "-register-all".
Local Open Scope string_scope.
Local Open Scope Z_scope.

(** ** JavaScript string operations used by the script

    Strings are sequences of 8-bit characters; the case conversions act on
    the ASCII letters, which is what [toUpperCase] and [toLowerCase] do on
    ASCII input.  An upper-case letter is one of [A]..[Z]. *)

Definition is_lower_ascii (c : ascii) : bool :=
  let n := N_of_ascii c in ((97 <=? n) && (n <=? 122))%N.

Definition is_upper_ascii (c : ascii) : bool :=
  let n := N_of_ascii c in ((65 <=? n) && (n <=? 90))%N.

Definition upper_ascii (c : ascii) : ascii :=
  if is_lower_ascii c then ascii_of_N (N_of_ascii c - 32) else c.

Definition lower_ascii (c : ascii) : ascii :=
  if is_upper_ascii c then ascii_of_N (N_of_ascii c + 32) else c.

Fixpoint map_string (f : ascii → ascii) (s : string) : string :=
  match s with
  | EmptyString => EmptyString
  | String c r => String (f c) (map_string f r)
  end.

(** [s.toUpperCase()] *)
Definition toUpperCase (s : string) : string := map_string upper_ascii s.

(** [s.toLowerCase()] *)
Definition toLowerCase (s : string) : string := map_string lower_ascii s.

(** [s.substring(1)]: everything after the first character. *)
Definition substring1 (s : string) : string :=
  match s with
  | EmptyString => EmptyString
  | String _ r => r
  end.

(** [s.replaceAll(a, b)] for one-character [a] and [b]. *)
Definition replaceAll (a b : ascii) (s : string) : string :=
  map_string (λ c, if Ascii.eqb c a then b else c) s.


(** The line feed appended after every event. *)
Definition newline : string := String (ascii_of_N 10) EmptyString.

(** JavaScript truthiness of a string: only the empty string is falsy. *)
Definition truthy_string (s : string) : bool := negb (String.eqb s "").

(** ** Values exchanged with the collaborators *)

(** JSON values.  The only numbers the script itself creates or prints are
    status codes, ports and timestamps, which are integers. *)
Inductive json : Type :=
| JNull
| JBool (b : bool)
| JNum (n : Z)
| JStr (s : string)
| JArr (items : list json)
| JObj (fields : list (string * json)).

(** JavaScript truthiness of a JSON value. *)
Definition truthy_json (j : json) : bool :=
  match j with
  | JNull => false
  | JBool b => b
  | JNum n => negb (n =? 0)
  | JStr s => truthy_string s
  | JArr _ | JObj _ => true
  end.

(** The response [client.request] resolves with ([res.status], [res.data]). *)
Record AxiosResponse := { status : Z; data : json }.

(** [LCUError] of @hasagi/core, with the fields the script reads. *)
Record LCUError := {
  lcu_statusCode : Z;
  lcu_errorCode : string;
  lcu_message : string;
  implementationDetails : option json
}.

(** [RequestError] of @hasagi/core; the script reads both fields through
    [??], so either may be absent. *)
Record RequestError := {
  req_errorCode : option string;
  req_message : option string
}.

(** What [client.request] rejects with: [(err: RequestError | LCUError)]. *)
Inductive rejection : Type :=
| RejectLCU (e : LCUError)
| RejectRequest (e : RequestError).

(** The value bound to [result] in the [request] branch of index.ts. *)
Inductive request_result : Type :=
| Success (statusCode : Z) (body : json)
| ProtocolError (e : LCUError)
| TransportError (e : RequestError).

(** The argument of [JSON.stringify]: a plain value, or one of the two error
    objects of the client library. *)
Inductive js_value : Type :=
| Plain (j : json)
| LCUErrorObject (e : LCUError)
| RequestErrorObject (e : RequestError).

Definition value_of_result (r : request_result) : js_value :=
  match r with
  | Success s b => Plain (JObj [("statusCode", JNum s); ("body", b)])
  | ProtocolError e => LCUErrorObject e
  | TransportError e => RequestErrorObject e
  end.

(** The object passed to [client.request]; a key the call site does not
    write is [None]. *)
Record request_config := {
  method : string;
  url : string;
  returnAxiosResponse : option bool;
  returnFullAxiosResponse : option bool;
  cfg_data : option json;
  params : option json
}.

(** Result of [getExtendedHelp(true)]. *)
Record ExtendedHelp := {
  consoleSchema : json;
  extendedSchema : json;
  fullSchema : json
}.

(** Result of [getTypeScript(...)]. *)
Record TypeScriptFiles := {
  lcuEndpoints : string;
  lcuEvents : string;
  lcuTypes : string
}.

(** A settled promise of a collaborator. *)
Inductive promise (A : Type) : Type :=
| Resolved (a : A)
| Rejected (reason : string).
Arguments Resolved {A} a.
Arguments Rejected {A} reason.

(** What the script can die of. *)
Inductive exn : Type :=
| SyntaxError (input : string)        (* JSON.parse on malformed text *)
| TypeError (what : string)           (* use of an undefined value *)
| ExternalError (reason : string)     (* an awaited promise was rejected *)
| RequestRejected (r : rejection).    (* client.request rejected, not caught *)

(** ** Effects: the calls that leave the script *)

Inductive eff : Type → Type :=
| Connect : eff nat
    (* await client.connect(); the answer is the number of
       "connection-attempt-failed" signals raised meanwhile *)
| GetPort : eff Z
| GetBasicAuthToken : eff string
| ClientRequest (cfg : request_config) : eff (AxiosResponse + rejection)
| AddLCUEventListener (name path : option string)
    (types : option (list string)) : eff unit
| Delay (ms : Z) : eff (list json)
    (* await delay(ms); the answer lists the events the client delivered to
       the registered callback while the script was suspended *)
| CallbackRejected (e : exn) : eff unit
    (* the promise of an event callback was rejected; nobody awaits it *)
| DateNow : eff Z
| ConsoleLog (line : string) : eff unit
| FsStat (p : string) : eff (promise bool)
    (* fs.stat(p); resolves with stat.isDirectory() *)
| FsWriteFile (p content : string) : eff (promise unit)
| FsAppendFile (p content : string) : eff (promise unit)
| FsMkdir (p : string) (recursive : bool) : eff (promise unit)
| GetExtendedHelp (flag : bool) : eff (promise ExtendedHelp)
| GetSwagger (extended : json) : eff (promise json)
| GetTypeScript (swagger extended : json) (namespace : option string)
    : eff (promise TypeScriptFiles).

(** ** Programs *)

Inductive prog (A : Type) : Type :=
| Ret (a : A)
| Throw (e : exn)
| Exit                                  (* process.exit() *)
| Pending                               (* still inside an unbounded loop *)
| Vis {X : Type} (e : eff X) (k : X → prog A).
Arguments Ret {A} a.
Arguments Throw {A} e.
Arguments Exit {A}.
Arguments Pending {A}.
Arguments Vis {A X} e k.

Fixpoint bind {A B : Type} (m : prog A) (f : A → prog B) : prog B :=
  match m with
  | Ret a => f a
  | Throw e => Throw e
  | Exit => Exit
  | Pending => Pending
  | Vis e k => Vis e (λ x, bind (k x) f)
  end.

Declare Scope prog_scope.
Delimit Scope prog_scope with prog.
Bind Scope prog_scope with prog.
Notation "x <- m ;; k" := (bind m (λ x, k))
  (at level 100, m at next level, right associativity) : prog_scope.
Notation "m ;;; k" := (bind m (λ _, k))
  (at level 100, right associativity) : prog_scope.
Local Open Scope prog_scope.

(** Perform one effect and return its answer. *)
Definition trigger {X : Type} (e : eff X) : prog X := Vis e Ret.

(** [await p] for a promise-returning call: a rejection is thrown. *)
Definition await {A : Type} (e : eff (promise A)) : prog A :=
  Vis e (λ r, match r with
              | Resolved a => Ret a
              | Rejected reason => Throw (ExternalError reason)
              end).

(** [try { m } catch (e) { h(e) }] *)
Fixpoint catch {A : Type} (m : prog A) (h : exn → prog A) : prog A :=
  match m with
  | Ret a => Ret a
  | Throw e => h e
  | Exit => Exit
  | Pending => Pending
  | Vis e k => Vis e (λ x, catch (k x) h)
  end.

(** [for (const x of xs) body(x)] *)
Fixpoint for_each {A : Type} (xs : list A) (body : A → prog unit) : prog unit :=
  match xs with
  | [] => Ret tt
  | x :: rest => body x ;;; for_each rest body
  end.

(** [while (cond) body], observed for [fuel] iterations: [Pending] says the
    loop has not been left by then. *)
Fixpoint while (cond : prog bool) (body : prog unit) (fuel : nat) : prog unit :=
  match fuel with
  | O => Pending
  | S fuel' =>
      c <- cond ;;
      if c then body ;;; while cond body fuel' else Ret tt
  end.

(** ** Running a program against a handler *)

(** One call of the trace, with the answer the handler gave. *)
Inductive event : Type :=
| Ev {X : Type} (e : eff X) (answer : X).

Inductive outcome (A : Type) : Type :=
| Returned (a : A)
| Thrown (e : exn)
| Exited
| StillRunning.
Arguments Returned {A} a.
Arguments Thrown {A} e.
Arguments Exited {A}.
Arguments StillRunning {A}.

Record result (W A : Type) := {
  res_outcome : outcome A;
  res_trace : list event;
  res_world : W
}.
Arguments res_outcome {W A} r.
Arguments res_trace {W A} r.
Arguments res_world {W A} r.

(** A handler answers every effect from its state and updates the state. *)
Definition handler (W : Type) : Type := ∀ X : Type, eff X → W → X * W.

Fixpoint run {W A : Type} (h : handler W) (p : prog A) (w : W) : result W A :=
  match p with
  | Ret a => {| res_outcome := Returned a; res_trace := []; res_world := w |}
  | Throw e => {| res_outcome := Thrown e; res_trace := []; res_world := w |}
  | Exit => {| res_outcome := Exited; res_trace := []; res_world := w |}
  | Pending => {| res_outcome := StillRunning; res_trace := []; res_world := w |}
  | Vis e k =>
      let a := h _ e w in
      let r := run h (k (fst a)) (snd a) in
      {| res_outcome := res_outcome r;
         res_trace := Ev e (fst a) :: res_trace r;
         res_world := res_world r |}
  end.

(** ** Library functions the script calls *)

Class Runtime := {
  (* _path.join(a, b) *)
  path_join : string → string → string;
  (* JSON.parse(text); None stands for the SyntaxError it throws *)
  JSON_parse : string → option json;
  (* JSON.stringify(v, null, indent); indent 0 is JSON.stringify(v) *)
  JSON_stringify : js_value → nat → string
}.

(** ** The parsed command line

    [options._[0]] selects the branch; each branch reads its own options.
    yargs demands both positionals of [request <method> <path>], so they are
    strings; every [.option(...)] may be absent ([undefined], here [None]),
    and an option given without a value is the empty string. *)

Record request_options := {
  o_method : string;
  o_path : string;
  o_body : option string;
  o_query : option string;
  o_out : option string
}.

Record listen_options := {
  l_name : option string;
  l_path : option string;
  l_type : option (list string);
  l_out : option string
}.

Record schema_options := {
  s_typescript : option string;
  s_tsnamespace : option string;
  s_swagger : option string;
  s_raw : option string
}.

Inductive command : Type :=
| CmdRequest (o : request_options)
| CmdListen (o : listen_options)
| CmdSchema (o : schema_options)
| CmdCredentials
| CmdOther (name : string).

(** [x !== undefined] *)
Definition defined {A : Type} (x : option A) : bool :=
  match x with Some _ => true | None => false end.

(** [x === undefined ? undefined : x !== "" ? x : "./"] *)
Definition resolve_out (out : option string) : option string :=
  match out with
  | None => None
  | Some s => if negb (String.eqb s "") then Some s else Some "./"
  end.

(** [x !== "" ? x : "./"] *)
Definition or_cwd (x : string) : string :=
  if negb (String.eqb x "") then x else "./".

(** [.then(stat => stat.isDirectory(), () => false)] on the promise of
    [fs.stat]. *)
Definition directory_or_false (r : promise bool) : bool :=
  match r with
  | Resolved isDir => isDir
  | Rejected _ => false
  end.

(** [out !== undefined
      ? await fs.stat(out).then(stat => stat.isDirectory(), () => false)
      : false] *)
Definition is_directory (out : option string) : prog bool :=
  match out with
  | Some p => Vis (FsStat p) (λ r, Ret (directory_or_false r))
  | None => Ret false
  end.

(** [p] run [n] times in a row. *)
Fixpoint times (n : nat) (p : prog unit) : prog unit :=
  match n with
  | O => Ret tt
  | S n' => p ;;; times n' p
  end.

(** [client.on("connection-attempt-failed", notify); await client.connect()] *)
Definition connect (notify : prog unit) : prog unit :=
  failed <- trigger Connect ;;
  times failed notify.

(** The template literal naming the file of a [request] result:
    [`${method}-${path.substring(1).replaceAll("/", "_")}-${Date.now()}.json`] *)
Definition request_file_name (method path : string) (now : Z) : string :=
  method +:+ "-" +:+ replaceAll "/" "_" (substring1 path) +:+ "-"
    +:+ pretty now +:+ ".json".

(** [typeof text === "string" ? JSON.parse(text) : undefined] *)
Definition parse_option `{Runtime} (text : option string) : prog (option json) :=
  match text with
  | Some t =>
      match JSON_parse t with
      | Some j => Ret (Some j)
      | None => Throw (SyntaxError t)
      end
  | None => Ret None
  end.

(** [isDirectory ? _path.join(out, "lcu-websocket-events.txt") : out] *)
Definition listen_target `{Runtime} (out : string) (isDirectory : bool) : string :=
  if isDirectory then path_join out "lcu-websocket-events.txt" else out.

(** [JSON.stringify(event, null, 4) + "\n"] *)
Definition event_record `{Runtime} (event : json) : string :=
  JSON_stringify (Plain event) 4 +:+ newline.

(** The body of the event callback, shared by both scripts up to the function
    that prints:
    [if (out) await fs.appendFile(isDirectory ? ... : out, JSON.stringify(...) + "\n");
     print(`Received event: ${JSON.stringify(event, null, 4)}`)] *)
Definition on_event `{Runtime} (print : string → prog unit)
    (out : option string) (isDirectory : bool) (event : json) : prog unit :=
  match out with
  | Some o =>
      if truthy_string o
      then await (FsAppendFile (listen_target o isDirectory) (event_record event))
      else Ret tt
  | None => Ret tt
  end ;;;
  print ("Received event: " +:+ JSON_stringify (Plain event) 4).

(** The client calls the registered callback once for every event, in the
    order of delivery.  The callback is [async] and its promise is not
    awaited by the script: a rejection is handed back to the runtime.  The
    calls are run here one after the other; real ones may overlap once their
    [fs.appendFile] is issued, which changes neither the [fs.appendFile]
    calls nor the order in which they are issued. *)
Definition deliver (callback : json → prog unit) (events : list json) : prog unit :=
  for_each events (λ event,
    catch (callback event) (λ e, trigger (CallbackRejected e))).

(** [await delay(ms)], during which the callback runs for the events that
    arrive. *)
Definition await_delay (ms : Z) (callback : json → prog unit) : prog unit :=
  events <- trigger (Delay ms) ;;
  deliver callback events.

(** The [listen] branch, shared by both scripts up to the function that
    prints. *)
Definition listen_with `{Runtime} (print : string → prog unit)
    (o : listen_options) (fuel : nat) : prog unit :=
  connect (print "Waiting for League of Legends client...") ;;;
  let name := l_name o in
  let path := l_path o in
  let types := l_type o in
  let out := resolve_out (l_out o) in
  isDirectory <- is_directory out ;;
  trigger (AddLCUEventListener name path types) ;;;
  while (Ret true) (await_delay 100 (on_event print out isDirectory)) fuel.

(** The [schema] branch; its text is the same in both scripts. *)
Definition schema_cmd `{Runtime} (o : schema_options) : prog unit :=
  let raw := s_raw o in
  let swagger := s_swagger o in
  let typescript := s_typescript o in
  let tsnamespace := s_tsnamespace o in
  if defined raw || defined swagger || defined typescript then
    help <- await (GetExtendedHelp true) ;;
    match raw with
    | Some raw =>
        let out := or_cwd raw in
        await (FsMkdir out true) ;;;
        await (FsWriteFile (path_join out "console-schema.json")
                 (JSON_stringify (Plain (consoleSchema help)) 4)) ;;;
        await (FsWriteFile (path_join out "full-schema.json")
                 (JSON_stringify (Plain (fullSchema help)) 4)) ;;;
        await (FsWriteFile (path_join out "extended-schema.json")
                 (JSON_stringify (Plain (extendedSchema help)) 4))
    | None => Ret tt
    end ;;;
    swaggerObj <-
      (if defined swagger || defined typescript
       then sw <- await (GetSwagger (extendedSchema help)) ;; Ret (Some sw)
       else Ret None) ;;
    match swagger with
    | Some swagger =>
        let out := or_cwd swagger in
        await (FsMkdir out true) ;;;
        match swaggerObj with
        | Some sw =>
            await (FsWriteFile (path_join out "swagger.json")
                     (JSON_stringify (Plain sw) 4))
        | None => Throw (TypeError "swaggerObj")
        end
    | None => Ret tt
    end ;;;
    match typescript with
    | Some typescript =>
        match swaggerObj with
        | Some sw =>
            ts <- await (GetTypeScript sw (extendedSchema help) tsnamespace) ;;
            let out := or_cwd typescript in
            await (FsMkdir out true) ;;;
            await (FsWriteFile (path_join out "lcu-types.d.ts") (lcuTypes ts)) ;;;
            await (FsWriteFile (path_join out "lcu-endpoints.d.ts") (lcuEndpoints ts)) ;;;
            await (FsWriteFile (path_join out "lcu-events.d.ts") (lcuEvents ts))
        | None => Throw (TypeError "swaggerObj")
        end
    | None => Ret tt
    end
  else Ret tt.

(** ** src/bin/index.ts *)

(** [function log(text) { console.log(`[hasagi] ${text}`) }] *)
Definition log (text : string) : prog unit :=
  trigger (ConsoleLog ("[hasagi] " +:+ text)).

(** The two handlers of
    [.then(res => ({ statusCode: res.status, body: res.data }),
           (err: RequestError | LCUError) => err)]:
    a response becomes the success record, an error is kept as it is. *)
Definition settle (answer : AxiosResponse + rejection) : request_result :=
  match answer with
  | inl res => Success (status res) (data res)
  | inr (RejectLCU err) => ProtocolError err
  | inr (RejectRequest err) => TransportError err
  end.

(** [await client.request(cfg).then(..., ...)] *)
Definition issue_request (cfg : request_config) : prog request_result :=
  Vis (ClientRequest cfg) (λ answer, Ret (settle answer)).

(** The [instanceof] cascade that prints the result. *)
Definition report `{Runtime} (result : request_result) : prog unit :=
  match result with
  | ProtocolError e =>
      log ("Received response with non-success status code '"
             +:+ pretty (lcu_statusCode e) +:+ "'.") ;;;
      log ("Error code: '" +:+ lcu_errorCode e +:+ "'.") ;;;
      log ("Error message: '" +:+ lcu_message e +:+ "'") ;;;
      match implementationDetails e with
      | Some details =>
          if truthy_json details
          then log ("Additional details: " +:+ JSON_stringify (Plain details) 0)
          else Ret tt
      | None => Ret tt
      end
  | TransportError e =>
      log (default "RequestError" (req_errorCode e) +:+ ": "
             +:+ default "An error occurred" (req_message e))
  | Success statusCode body =>
      log ("Received response with status code '" +:+ pretty statusCode +:+ "'.") ;;;
      log ("Response: " +:+ JSON_stringify (Plain body) 4)
  end.

(** The [request] branch. *)
Definition request_cmd `{Runtime} (o : request_options) : prog unit :=
  connect (log "Waiting for League of Legends client...") ;;;
  let method := toUpperCase (o_method o) in
  let path := o_path o in
  body <- parse_option (o_body o) ;;
  query <- parse_option (o_query o) ;;
  let out := resolve_out (o_out o) in
  isDirectory <- is_directory out ;;
  port <- trigger GetPort ;;
  log ("Sending '" +:+ method +:+ "' request to 'https://127.0.0.1:"
         +:+ pretty port +:+ path +:+ "'...") ;;;
  result <- issue_request {| method := method;
                             url := path;
                             returnAxiosResponse := Some true;
                             returnFullAxiosResponse := None;
                             cfg_data := body;
                             params := query |} ;;
  match out with
  | Some out =>
      if truthy_string out then
        target <- (if isDirectory
                   then now <- trigger DateNow ;;
                        Ret (path_join out (request_file_name method path now))
                   else Ret out) ;;
        await (FsWriteFile target (JSON_stringify (value_of_result result) 4))
      else Ret tt
  | None => Ret tt
  end ;;;
  report result.

(** The [listen] branch. *)
Definition listen_cmd `{Runtime} (o : listen_options) (fuel : nat) : prog unit :=
  listen_with log o fuel.

(** The [credentials] branch. *)
Definition credentials_cmd `{Runtime} : prog unit :=
  connect (log "Waiting for League of Legends client...") ;;;
  port <- trigger GetPort ;;
  token <- trigger GetBasicAuthToken ;;
  log (JSON_stringify
         (Plain (JObj [("url", JStr ("https://127.0.0.1:" +:+ pretty port));
                       ("Authorization", JStr ("Basic " +:+ token))])) 4).

(** The whole script after argument parsing; [fuel] bounds how long the
    idle loop of [listen] is observed. *)
Definition main `{Runtime} (c : command) (fuel : nat) : prog unit :=
  match c with
  | CmdRequest o => request_cmd o
  | CmdListen o => listen_cmd o fuel
  | CmdSchema o => schema_cmd o
  | CmdCredentials => credentials_cmd
  | CmdOther _ => Ret tt
  end ;;;
  Exit.

(** ** src/unnamed/part_000, the older script *)

Module Legacy.

(** The older script prints with [console.log] directly. *)
Definition console_log (text : string) : prog unit :=
  trigger (ConsoleLog text).

(** The [request] branch: the path is lower-cased, [--body] and [--query]
    are ignored, and the promise of [client.request] is awaited as it is. *)
Definition request_cmd `{Runtime} (o : request_options) : prog unit :=
  connect (console_log "Waiting for League of Legends client...") ;;;
  let method := toUpperCase (o_method o) in
  let path := toLowerCase (o_path o) in
  let out := resolve_out (o_out o) in
  isDirectory <- is_directory out ;;
  console_log "Waiting for League client..." ;;;
  port <- trigger GetPort ;;
  console_log ("Sending '" +:+ method +:+ "' request to 'https://127.0.0.1:"
                 +:+ pretty port +:+ path +:+ "'...") ;;;
  result <- Vis (ClientRequest {| method := method;
                                  url := path;
                                  returnAxiosResponse := None;
                                  returnFullAxiosResponse := Some true;
                                  cfg_data := None;
                                  params := None |})
              (λ answer, match answer with
                         | inl res => Ret res
                         | inr err => Throw (RequestRejected err)
                         end) ;;
  match out with
  | Some out =>
      if truthy_string out then
        target <- (if isDirectory
                   then now <- trigger DateNow ;;
                        Ret (path_join out (request_file_name method path now))
                   else Ret out) ;;
        await (FsWriteFile target
                 (JSON_stringify
                    (Plain (JObj [("statusCode", JNum (status result));
                                  ("data", data result)])) 4))
      else Ret tt
  | None => Ret tt
  end ;;;
  console_log ("Status code: " +:+ pretty (status result)) ;;;
  console_log ("Response content: " +:+ JSON_stringify (Plain (data result)) 4).

Definition listen_cmd `{Runtime} (o : listen_options) (fuel : nat) : prog unit :=
  listen_with console_log o fuel.

(** No [credentials] command is registered: the name selects no branch. *)
Definition main `{Runtime} (c : command) (fuel : nat) : prog unit :=
  match c with
  | CmdRequest o => request_cmd o
  | CmdListen o => listen_cmd o fuel
  | CmdSchema o => schema_cmd o
  | CmdCredentials => Ret tt
  | CmdOther _ => Ret tt
  end ;;;
  Exit.

End Legacy.

(** ** Reading a trace *)

Definition ev_write (ev : event) : option (string * string) :=
  match ev with
  | Ev e _ => match e with FsWriteFile p c => Some (p, c) | _ => None end
  end.

Definition ev_append (ev : event) : option (string * string) :=
  match ev with
  | Ev e _ => match e with FsAppendFile p c => Some (p, c) | _ => None end
  end.

Definition ev_mkdir (ev : event) : option string :=
  match ev with
  | Ev e _ => match e with FsMkdir p _ => Some p | _ => None end
  end.

Definition ev_stat (ev : event) : option (string * promise bool) :=
  match ev with
  | Ev e a =>
      match e in eff X return X → option (string * promise bool) with
      | FsStat p => λ a, Some (p, a)
      | _ => λ _, None
      end a
  end.

Definition ev_request (ev : event) : option (request_config * (AxiosResponse + rejection)) :=
  match ev with
  | Ev e a =>
      match e in eff X
            return X → option (request_config * (AxiosResponse + rejection)) with
      | ClientRequest cfg => λ a, Some (cfg, a)
      | _ => λ _, None
      end a
  end.

Definition ev_delay (ev : event) : option (Z * list json) :=
  match ev with
  | Ev e a =>
      match e in eff X return X → option (Z * list json) with
      | Delay ms => λ a, Some (ms, a)
      | _ => λ _, None
      end a
  end.

Definition ev_log (ev : event) : option string :=
  match ev with
  | Ev e _ => match e with ConsoleLog line => Some line | _ => None end
  end.

Definition ev_clock (ev : event) : option Z :=
  match ev with
  | Ev e a =>
      match e in eff X return X → option Z with
      | DateNow => λ a, Some a
      | _ => λ _, None
      end a
  end.

Definition ev_listener (ev : event)
    : option (option string * option string * option (list string)) :=
  match ev with
  | Ev e _ =>
      match e with AddLCUEventListener n p t => Some (n, p, t) | _ => None end
  end.

Definition ev_fetch (ev : event) : option (bool * promise ExtendedHelp) :=
  match ev with
  | Ev e a =>
      match e in eff X return X → option (bool * promise ExtendedHelp) with
      | GetExtendedHelp b => λ a, Some (b, a)
      | _ => λ _, None
      end a
  end.

Definition ev_swagger (ev : event) : option (json * promise json) :=
  match ev with
  | Ev e a =>
      match e in eff X return X → option (json * promise json) with
      | GetSwagger x => λ a, Some (x, a)
      | _ => λ _, None
      end a
  end.

Definition ev_typescript (ev : event) : option (json * json * option string) :=
  match ev with
  | Ev e _ => match e with GetTypeScript s x n => Some (s, x, n) | _ => None end
  end.

(** Calls and answers of each kind, in the order of the trace. *)
Definition writes (tr : list event) := omap ev_write tr.
Definition appends (tr : list event) := omap ev_append tr.
Definition mkdirs (tr : list event) := omap ev_mkdir tr.
Definition stats (tr : list event) := omap ev_stat tr.
Definition requests (tr : list event) := omap ev_request tr.
Definition delays (tr : list event) := omap ev_delay tr.
Definition logs (tr : list event) := omap ev_log tr.
Definition clock_reads (tr : list event) := omap ev_clock tr.
Definition listeners (tr : list event) := omap ev_listener tr.
Definition fetches (tr : list event) := omap ev_fetch tr.
Definition swaggers (tr : list event) := omap ev_swagger tr.
Definition typescripts (tr : list event) := omap ev_typescript tr.

(** The events handed to the callback, in the order of delivery. *)
Definition delivered (tr : list event) : list json :=
  List.concat (map snd (delays tr)).

(** Calls made while the script idles in its loop. *)
Definition is_loop_event (ev : event) : bool :=
  match ev with
  | Ev e _ =>
      match e with
      | Delay _ | FsAppendFile _ _ | ConsoleLog _ | CallbackRejected _ => true
      | _ => false
      end
  end.



(** Calls that only talk to the client or to the console. *)
Definition is_chatter (ev : event) : bool :=
  match ev with
  | Ev e _ =>
      match e with
      | Connect | ConsoleLog _ | GetPort | GetBasicAuthToken => true
      | _ => false
      end
  end.

(** ** Vocabulary of the statements *)

(** Options of [schema] with only [--swagger] given, and with no target. *)
Definition only_swagger (s : string) (ns : option string) : schema_options :=
  {| s_typescript := None; s_tsnamespace := ns; s_swagger := Some s; s_raw := None |}.

Definition no_targets (ns : option string) : schema_options :=
  {| s_typescript := None; s_tsnamespace := ns; s_swagger := None; s_raw := None |}.

(** The file name as the specification words it: the method, the whole path
    with every ["/"] replaced by ["_"], and the timestamp. *)
Definition spec_file_name (method path : string) (now : Z) : string :=
  method +:+ "-" +:+ replaceAll "/" "_" path +:+ "-" +:+ pretty now +:+ ".json".

(** The line the [instanceof] cascade prints for the details of an
    [LCUError], if it prints one. *)
Definition details_line `{Runtime} (e : LCUError) : list string :=
  match implementationDetails e with
  | Some details =>
      if truthy_json details
      then ["[hasagi] Additional details: " +:+ JSON_stringify (Plain details) 0]
      else []
  | None => []
  end.

(** The appends the callback is expected to make for a list of events. *)
Definition expected_appends `{Runtime} (out : option string) (isDir : bool)
    (events : list json) : list (string * string) :=
  match out with
  | Some o => map (λ event, (listen_target o isDir, event_record event)) events
  | None => []
  end.

Definition configured (out : option string) : Prop :=
  match out with
  | Some o => truthy_string o = true
  | None => True
  end.

(** What [listen] shows with [--out] given, read on the run of a script. *)
Definition listens_with_out `{Runtime} {W : Type} (o : listen_options) (s : string) (fuel : nat)
    (r : result W unit) : Prop :=
  res_outcome r = StillRunning
  ∧ listeners (res_trace r) = [(l_name o, l_path o, l_type o)]
  ∧ map fst (delays (res_trace r)) = replicate fuel 100
  ∧ writes (res_trace r) = []
  ∧ ∃ a,
      stats (res_trace r) = [(or_cwd s, a)]
      ∧ appends (res_trace r)
        = map (λ event,
                 (listen_target (or_cwd s) (directory_or_false a),
                  event_record event))
            (delivered (res_trace r)).



(** ** A sample runtime and a sample world, to run the script on inputs *)

Module Sample.

(** Joins with one separator; agrees with [path.join] on a directory name
    and a file name that need no normalisation. *)
Definition join (a b : string) : string :=
  match String.get (String.length a - 1) a with
  | Some "/"%char => a +:+ b
  | _ => a +:+ "/" +:+ b
  end.

(** Recognises the JSON literals and the empty containers. *)
Definition parse (text : string) : option json :=
  if String.eqb text "null" then Some JNull
  else if String.eqb text "true" then Some (JBool true)
  else if String.eqb text "false" then Some (JBool false)
  else if String.eqb text "{}" then Some (JObj [])
  else if String.eqb text "[]" then Some (JArr [])
  else None.

Definition quote (s : string) : string :=
  String (ascii_of_N 34) (s +:+ String (ascii_of_N 34) EmptyString).

Definition commas (parts : list string) : string :=
  match parts with
  | [] => ""
  | p :: rest => foldl (λ acc q, acc +:+ "," +:+ q) p rest
  end.

(** A compact serialiser (the indentation is ignored). *)
Fixpoint show (j : json) : string :=
  match j with
  | JNull => "null"
  | JBool true => "true"
  | JBool false => "false"
  | JNum n => pretty n
  | JStr s => quote s
  | JArr items => "[" +:+ commas (map show items) +:+ "]"
  | JObj fields =>
      "{" +:+ commas (map (λ kv, quote (fst kv) +:+ ":" +:+ show (snd kv)) fields)
          +:+ "}"
  end.

Definition stringify (v : js_value) (indent : nat) : string :=
  match v with
  | Plain j => show j
  | LCUErrorObject e =>
      show (JObj [("statusCode", JNum (lcu_statusCode e));
                  ("errorCode", JStr (lcu_errorCode e))])
  | RequestErrorObject e =>
      show (JObj (match req_errorCode e with
                  | Some c => [("errorCode", JStr c)]
                  | None => []
                  end))
  end.

#[export] Instance runtime : Runtime :=
  {| path_join := join; JSON_parse := parse; JSON_stringify := stringify |}.

(** An in-memory stand-in for the collaborators. *)
Record world := {
  files : gmap string string;
  dirs : list string;
  clock : Z;
  port : Z;
  failed_attempts : nat;
  reply : AxiosResponse + rejection;
  inbox : list (list json);
  help : promise ExtendedHelp
}.

Definition set_files (f : gmap string string) (w : world) : world :=
  {| files := f; dirs := dirs w; clock := clock w; port := port w;
     failed_attempts := failed_attempts w; reply := reply w;
     inbox := inbox w; help := help w |}.

Definition serve : handler world := λ X e,
  match e in eff X return world → X * world with
  | Connect => λ w, (failed_attempts w, w)
  | GetPort => λ w, (port w, w)
  | GetBasicAuthToken => λ w, ("cmlvdDpzZWNyZXQ=", w)
  | ClientRequest _ => λ w, (reply w, w)
  | AddLCUEventListener _ _ _ => λ w, (tt, w)
  | Delay _ => λ w,
      (hd [] (inbox w),
       {| files := files w; dirs := dirs w; clock := clock w + 100;
          port := port w; failed_attempts := failed_attempts w;
          reply := reply w; inbox := tl (inbox w); help := help w |})
  | CallbackRejected _ => λ w, (tt, w)
  | DateNow => λ w, (clock w, w)
  | ConsoleLog _ => λ w, (tt, w)
  | FsStat p => λ w,
      (if bool_decide (p ∈ dirs w) then Resolved true
       else if bool_decide (is_Some (files w !! p)) then Resolved false
       else Rejected "ENOENT", w)
  | FsWriteFile p c => λ w,
      if bool_decide (p ∈ dirs w) then (Rejected "EISDIR", w)
      else (Resolved tt, set_files (<[p := c]> (files w)) w)
  | FsAppendFile p c => λ w,
      if bool_decide (p ∈ dirs w) then (Rejected "EISDIR", w)
      else (Resolved tt,
            set_files (<[p := default "" (files w !! p) +:+ c]> (files w)) w)
  | FsMkdir p _ => λ w,
      (Resolved tt,
       {| files := files w; dirs := p :: dirs w; clock := clock w;
          port := port w; failed_attempts := failed_attempts w;
          reply := reply w; inbox := inbox w; help := help w |})
  | GetExtendedHelp _ => λ w, (help w, w)
  | GetSwagger x => λ w, (Resolved (JObj [("swagger", JStr "2.0"); ("from", x)]), w)
  | GetTypeScript _ _ ns => λ w,
      (Resolved {| lcuEndpoints := "endpoints"; lcuEvents := "events";
                   lcuTypes := default "types" ns |}, w)
  end.

Definition start : world :=
  {| files := ∅; dirs := ["out"]; clock := 17; port := 2999;
     failed_attempts := 1;
     reply := inl {| status := 200; data := JObj [] |};
     inbox := [[JStr "a"; JStr "b"]; []; [JNull]];
     help := Resolved {| consoleSchema := JStr "c"; extendedSchema := JStr "x";
                         fullSchema := JStr "f" |} |}.

(** The sample world with another answer to [client.request]. *)
Definition answering (r : AxiosResponse + rejection) (w : world) : world :=
  {| files := files w; dirs := dirs w; clock := clock w; port := port w;
     failed_attempts := failed_attempts w; reply := r; inbox := inbox w;
     help := help w |}.

End Sample.

(** A request and a subscription to run on the sample world. *)
Definition sample_request : request_options :=
  {| o_method := "get"; o_path := "/a/B"; o_body := None; o_query := None;
     o_out := Some "out" |}.

Definition sample_listen : listen_options :=
  {| l_name := None; l_path := Some "/lol-gameflow/v1/session";
     l_type := Some ["Update"]; l_out := Some "out" |}.

(** ** Further vocabulary *)

(** Does the string contain the character [c]? *)
Fixpoint has_char (c : ascii) (s : string) : bool :=
  match s with
  | EmptyString => false
  | String x r => Ascii.eqb x c || has_char c r
  end.


(** Further readings of a trace: the answers of [client.connect()],
    [client.getPort()] and [client.getBasicAuthToken()], the calls of
    [getTypeScript] and the calls of [fs.writeFile] and [fs.appendFile] with
    their answers. *)
Definition ev_connect (ev : event) : option nat :=
  match ev with
  | Ev e a =>
      match e in eff X return X → option nat with
      | Connect => λ a, Some a
      | _ => λ _, None
      end a
  end.
Definition connects (tr : list event) := omap ev_connect tr.

Definition ev_port (ev : event) : option Z :=
  match ev with
  | Ev e a =>
      match e in eff X return X → option Z with
      | GetPort => λ a, Some a
      | _ => λ _, None
      end a
  end.
Definition ports (tr : list event) := omap ev_port tr.

Definition ev_token (ev : event) : option string :=
  match ev with
  | Ev e a =>
      match e in eff X return X → option string with
      | GetBasicAuthToken => λ a, Some a
      | _ => λ _, None
      end a
  end.
Definition tokens (tr : list event) := omap ev_token tr.

Definition ev_generate (ev : event)
    : option (json * json * option string * promise TypeScriptFiles) :=
  match ev with
  | Ev e a =>
      match e in eff X
            return X → option (json * json * option string * promise TypeScriptFiles) with
      | GetTypeScript s x n => λ a, Some (s, x, n, a)
      | _ => λ _, None
      end a
  end.
Definition generations (tr : list event) := omap ev_generate tr.

(** The directories the [schema] branch makes, in the order of the source:
    raw, Swagger, TypeScript. *)
Definition schema_dirs (o : schema_options) : list string :=
  (match s_raw o with Some r => [or_cwd r] | None => [] end)
  ++ (match s_swagger o with Some s => [or_cwd s] | None => [] end)
  ++ (match s_typescript o with Some t => [or_cwd t] | None => [] end).

(** The files the [schema] branch writes, in the order of the source. *)
Definition schema_files `{Runtime} (o : schema_options) : list string :=
  (match s_raw o with
   | Some r => [path_join (or_cwd r) "console-schema.json";
                path_join (or_cwd r) "full-schema.json";
                path_join (or_cwd r) "extended-schema.json"]
   | None => []
   end)
  ++ (match s_swagger o with
      | Some s => [path_join (or_cwd s) "swagger.json"]
      | None => []
      end)
  ++ (match s_typescript o with
      | Some t => [path_join (or_cwd t) "lcu-types.d.ts";
                   path_join (or_cwd t) "lcu-endpoints.d.ts";
                   path_join (or_cwd t) "lcu-events.d.ts"]
      | None => []
      end).

(** Options of [schema] with only [--raw] given, and with only
    [--typescript]. *)
Definition only_raw (r : string) (ns : option string) : schema_options :=
  {| s_typescript := None; s_tsnamespace := ns; s_swagger := None; s_raw := Some r |}.


Definition ev_write_answer (ev : event) : option (string * string * promise unit) :=
  match ev with
  | Ev e a =>
      match e in eff X return X → option (string * string * promise unit) with
      | FsWriteFile p c => λ a, Some (p, c, a)
      | _ => λ _, None
      end a
  end.
Definition write_answers (tr : list event) := omap ev_write_answer tr.

(** The lines the [instanceof] cascade prints for an answer of the client. *)
Definition result_lines `{Runtime} (answer : AxiosResponse + rejection) : list string :=
  match answer with
  | inl res =>
      ["[hasagi] Received response with status code '"
         +:+ pretty (status res) +:+ "'.";
       "[hasagi] Response: " +:+ JSON_stringify (Plain (data res)) 4]
  | inr (RejectLCU e) =>
      ["[hasagi] Received response with non-success status code '"
         +:+ pretty (lcu_statusCode e) +:+ "'.";
       "[hasagi] Error code: '" +:+ lcu_errorCode e +:+ "'.";
       "[hasagi] Error message: '" +:+ lcu_message e +:+ "'"]
      ++ details_line e
  | inr (RejectRequest e) =>
      ["[hasagi] " +:+ default "RequestError" (req_errorCode e) +:+ ": "
         +:+ default "An error occurred" (req_message e)]
  end.

(** Is the call a [client.request]? *)
Definition is_request (ev : event) : bool :=
  match ev with
  | Ev e _ => match e with ClientRequest _ => true | _ => false end
  end.

(** The calls made before the first [client.request], and the calls from it
    on. *)
Fixpoint before_request (tr : list event) : list event :=
  match tr with
  | [] => []
  | ev :: rest => if is_request ev then [] else ev :: before_request rest
  end.

Fixpoint from_request (tr : list event) : list event :=
  match tr with
  | [] => []
  | ev :: rest => if is_request ev then ev :: rest else from_request rest
  end.

(** The options with another [--body] and [--query]. *)
Definition with_payload (body query : option string) (o : request_options)
    : request_options :=
  {| o_method := o_method o; o_path := o_path o; o_body := body;
     o_query := query; o_out := o_out o |}.

Definition ev_append_answer (ev : event) : option (string * string * promise unit) :=
  match ev with
  | Ev e a =>
      match e in eff X return X → option (string * string * promise unit) with
      | FsAppendFile p c => λ a, Some (p, c, a)
      | _ => λ _, None
      end a
  end.
Definition append_answers (tr : list event) := omap ev_append_answer tr.

(** Sample worlds and options for the further properties: a world whose
    schema generator is unreachable, a world in which the file of the sample
    request cannot be written, and a subscription without [--out]. *)
Definition sample_without_help : Sample.world :=
  {| Sample.files := ∅; Sample.dirs := ["out"]; Sample.clock := 17;
     Sample.port := 2999; Sample.failed_attempts := 0;
     Sample.reply := inl {| status := 200; data := JObj [] |};
     Sample.inbox := []; Sample.help := Rejected "ECONNREFUSED" |}.

Definition sample_unwritable : Sample.world :=
  {| Sample.files := ∅; Sample.dirs := ["out"; "out/GET-a_B-17.json"];
     Sample.clock := 17; Sample.port := 2999; Sample.failed_attempts := 2;
     Sample.reply := inl {| status := 200; data := JObj [] |};
     Sample.inbox := []; Sample.help := Sample.help Sample.start |}.

Definition sample_listen_stdout : listen_options :=
  {| l_name := Some "OnJsonApiEvent"; l_path := None; l_type := None;
     l_out := None |}.

(** * Properties *)

(** ** Strings *)




Lemma or_cwd_truthy (s : string) : truthy_string (or_cwd s) = true.
Proof.
  unfold or_cwd, truthy_string.
  destruct (String.eqb s "") eqn:E; simpl; [reflexivity|].
  now rewrite E.
Qed.

Lemma resolve_out_None : resolve_out None = None.
Proof. reflexivity. Qed.

Lemma resolve_out_Some (s : string) : resolve_out (Some s) = Some (or_cwd s).
Proof. unfold resolve_out, or_cwd. now destruct (String.eqb s ""). Qed.

(** ** Running composed programs *)

Section Running.
Context {W : Type} (h : handler W).

Lemma run_bind {A B : Type} (m : prog A) (f : A → prog B) (w : W) :
  run h (bind m f) w =
    match res_outcome (run h m w) with
    | Returned a =>
        {| res_outcome := res_outcome (run h (f a) (res_world (run h m w)));
           res_trace := res_trace (run h m w)
                          ++ res_trace (run h (f a) (res_world (run h m w)));
           res_world := res_world (run h (f a) (res_world (run h m w))) |}
    | Thrown e =>
        {| res_outcome := Thrown e;
           res_trace := res_trace (run h m w);
           res_world := res_world (run h m w) |}
    | Exited =>
        {| res_outcome := Exited;
           res_trace := res_trace (run h m w);
           res_world := res_world (run h m w) |}
    | StillRunning =>
        {| res_outcome := StillRunning;
           res_trace := res_trace (run h m w);
           res_world := res_world (run h m w) |}
    end.
Proof.
  revert w. induction m as [a|e| | |X e k IH]; intros w; simpl; try reflexivity.
  - now destruct (run h (f a) w).
  - rewrite IH. now destruct (res_outcome (run h (k (h X e w).1) (h X e w).2)).
Qed.

(** A program made of calls that always come back returns, and its trace
    is made of those calls. *)
Lemma run_times_log (line : string) (n : nat) (w : W) :
  res_outcome (run h (times n (trigger (ConsoleLog line))) w) = Returned tt
  ∧ forallb is_chatter (res_trace (run h (times n (trigger (ConsoleLog line))) w))
    = true.
Proof.
  revert w. induction n as [|n IH]; intros w; simpl; [easy|].
  destruct (h _ (ConsoleLog line) w) as [[] w1]; simpl.
  exact (IH w1).
Qed.

Lemma run_connect (line : string) (w : W) :
  res_outcome (run h (connect (trigger (ConsoleLog line))) w) = Returned tt
  ∧ forallb is_chatter (res_trace (run h (connect (trigger (ConsoleLog line))) w))
    = true.
Proof.
  unfold connect. simpl.
  destruct (h _ Connect w) as [n w1]; simpl.
  exact (run_times_log line n w1).
Qed.

Lemma run_connect_log (text : string) (w : W) :
  res_outcome (run h (connect (log text)) w) = Returned tt
  ∧ forallb is_chatter (res_trace (run h (connect (log text)) w)) = true.
Proof. exact (run_connect ("[hasagi] " +:+ text) w). Qed.

Lemma run_connect_console (text : string) (w : W) :
  res_outcome (run h (connect (Legacy.console_log text)) w) = Returned tt
  ∧ forallb is_chatter (res_trace (run h (connect (Legacy.console_log text)) w))
    = true.
Proof. exact (run_connect text w). Qed.

End Running.

Lemma omap_none {B : Type} (P : event → bool) (f : event → option B)
    (tr : list event) :
  (∀ ev, P ev = true → f ev = None) →
  forallb P tr = true → omap f tr = [].
Proof.
  intros Hf. induction tr as [|ev tr IH]; simpl; [reflexivity|].
  intros [Hev Htr]%andb_true_iff.
  rewrite (Hf ev Hev). exact (IH Htr).
Qed.

Lemma omap_chatter {B : Type} (f : event → option B) (tr : list event) :
  (∀ ev, is_chatter ev = true → f ev = None) →
  forallb is_chatter tr = true → omap f tr = [].
Proof. apply omap_none. Qed.

Ltac chatter_none :=
  let ev := fresh "ev" in
  intros ev; destruct ev as [? [] ?]; simpl; intros; congruence.

Lemma ev_write_chatter ev : is_chatter ev = true → ev_write ev = None.
Proof. revert ev. chatter_none. Qed.
Lemma ev_append_chatter ev : is_chatter ev = true → ev_append ev = None.
Proof. revert ev. chatter_none. Qed.
Lemma ev_mkdir_chatter ev : is_chatter ev = true → ev_mkdir ev = None.
Proof. revert ev. chatter_none. Qed.
Lemma ev_stat_chatter ev : is_chatter ev = true → ev_stat ev = None.
Proof. revert ev. chatter_none. Qed.
Lemma ev_request_chatter ev : is_chatter ev = true → ev_request ev = None.
Proof. revert ev. chatter_none. Qed.
Lemma ev_delay_chatter ev : is_chatter ev = true → ev_delay ev = None.
Proof. revert ev. chatter_none. Qed.
Lemma ev_clock_chatter ev : is_chatter ev = true → ev_clock ev = None.
Proof. revert ev. chatter_none. Qed.
Lemma ev_listener_chatter ev : is_chatter ev = true → ev_listener ev = None.
Proof. revert ev. chatter_none. Qed.
Lemma ev_fetch_chatter ev : is_chatter ev = true → ev_fetch ev = None.
Proof. revert ev. chatter_none. Qed.
Lemma ev_swagger_chatter ev : is_chatter ev = true → ev_swagger ev = None.
Proof. revert ev. chatter_none. Qed.

(** Remove a chatter prefix [pre] from every reading of the trace. *)
Ltac drop_chatter Hpre :=
  unfold writes, appends, mkdirs, stats, requests, delays, clock_reads,
    listeners, fetches, swaggers, delivered;
  rewrite ?omap_app;
  rewrite ?(omap_chatter ev_write _ ev_write_chatter Hpre),
    ?(omap_chatter ev_append _ ev_append_chatter Hpre),
    ?(omap_chatter ev_mkdir _ ev_mkdir_chatter Hpre),
    ?(omap_chatter ev_stat _ ev_stat_chatter Hpre),
    ?(omap_chatter ev_request _ ev_request_chatter Hpre),
    ?(omap_chatter ev_delay _ ev_delay_chatter Hpre),
    ?(omap_chatter ev_clock _ ev_clock_chatter Hpre),
    ?(omap_chatter ev_listener _ ev_listener_chatter Hpre),
    ?(omap_chatter ev_fetch _ ev_fetch_chatter Hpre),
    ?(omap_chatter ev_swagger _ ev_swagger_chatter Hpre);
  rewrite ?app_nil_l.

(** Case analysis on the answer of the next call of the run. *)
Ltac next_answer h :=
  match goal with
  | |- context [h ?X ?e ?w] =>
      is_var w;
      let a := fresh "a" in
      let w' := fresh "w" in
      destruct (h X e w) as [a w'];
      lazymatch type of a with
      | unit => destruct a
      | _ => idtac
      end;
      simpl
  end.

(** ** The [schema] branch *)


(** The completing case of [schema_swagger_only] on the sample world. *)
Example sample_swagger_export :
  let r := run Sample.serve
             (schema_cmd (H := Sample.runtime) (only_swagger "api" None))
             Sample.start in
  res_outcome r = Returned tt
  ∧ fetches (res_trace r) = [(true, Sample.help Sample.start)]
  ∧ mkdirs (res_trace r) = ["api"]
  ∧ map fst (writes (res_trace r)) = ["api/swagger.json"].
Proof. vm_compute. repeat split. Qed.

(** C5: with none of [--raw], [--swagger], [--typescript] given, the
    [schema] branch makes no call at all (no fetch, no derivation, no
    [mkdir], no write) and returns; the script then goes straight to
    [process.exit()].  The same holds for the older script. *)
Theorem schema_without_targets_is_noop `{Runtime} {W : Type} (h : handler W)
    (w : W) (ns : option string) (fuel : nat) :
  run h (schema_cmd (no_targets ns)) w
    = {| res_outcome := Returned tt; res_trace := []; res_world := w |}
  ∧ run h (main (CmdSchema (no_targets ns)) fuel) w
    = {| res_outcome := Exited; res_trace := []; res_world := w |}
  ∧ run h (Legacy.main (CmdSchema (no_targets ns)) fuel) w
    = {| res_outcome := Exited; res_trace := []; res_world := w |}.
Proof. repeat split. Qed.

(** ** The [request] branch of index.ts *)

#[local] Arguments String.append : simpl never.
#[local] Arguments pretty : simpl never.
#[local] Arguments toUpperCase : simpl never.
#[local] Arguments toLowerCase : simpl never.
#[local] Arguments request_file_name : simpl never.
#[local] Arguments truthy_string : simpl never.
#[local] Arguments truthy_json : simpl never.
#[local] Arguments or_cwd : simpl never.
#[local] Arguments resolve_out : simpl never.

(** Case analysis on whatever the run branches on next. *)
Ltac next_branch :=
  match goal with
  | |- context [match ?x with _ => _ end] =>
      is_var x; destruct x; simpl
  | |- context [directory_or_false ?a] =>
      is_var a; destruct a as [[]|]; simpl
  | |- context [settle ?a] =>
      is_var a; destruct a as [?|[?|?]]; simpl
  | |- context [match JSON_parse ?t with _ => _ end] =>
      let E := fresh "Eparse" in destruct (JSON_parse t) eqn:E; simpl
  | |- context [if truthy_string ?t then _ else _] =>
      let E := fresh "Etruthy" in destruct (truthy_string t) eqn:E; simpl
  | |- context [if truthy_json ?t then _ else _] =>
      let E := fresh "Edetails" in destruct (truthy_json t) eqn:E; simpl
  | |- context [match implementationDetails ?e with _ => _ end] =>
      let E := fresh "Edetails" in destruct (implementationDetails e) eqn:E; simpl
  end.

Ltac exec h :=
  rewrite ?resolve_out_Some, ?resolve_out_None; simpl;
  rewrite ?or_cwd_truthy; simpl;
  repeat first [next_answer h | next_branch].

(** Split a run at the end of [client.connect()]: the prefix [pre] of the
    trace is chatter, and the rest runs from the state [w']. *)
Ltac after_connect h w' pre Hpre :=
  rewrite run_bind;
  match goal with
  | |- context [run h (connect (log ?text)) ?w] =>
      let Hout := fresh "Hout" in
      destruct (run_connect_log h text w) as [Hout Hpre];
      rewrite Hout; clear Hout;
      generalize dependent (res_trace (run h (connect (log text)) w));
      generalize (res_world (run h (connect (log text)) w));
      intros w' pre Hpre
  | |- context [run h (connect (Legacy.console_log ?text)) ?w] =>
      let Hout := fresh "Hout" in
      destruct (run_connect_console h text w) as [Hout Hpre];
      rewrite Hout; clear Hout;
      generalize dependent (res_trace (run h (connect (Legacy.console_log text)) w));
      generalize (res_world (run h (connect (Legacy.console_log text)) w));
      intros w' pre Hpre
  end;
  cbv beta iota.

Section Request.
Context `{Runtime} {W : Type} (h : handler W).




(** Whatever the branch writes is the serialised [result]. *)
Lemma request_cmd_writes_result (o : request_options) (w : W) :
  writes (res_trace (run h (request_cmd o) w)) = []
  ∨ ∃ cfg answer target,
      requests (res_trace (run h (request_cmd o) w)) = [(cfg, answer)]
      ∧ writes (res_trace (run h (request_cmd o) w))
        = [(target, JSON_stringify (value_of_result (settle answer)) 4)].
Proof.
  unfold request_cmd. after_connect h w1 pre Hpre. simpl. drop_chatter Hpre.
  destruct o as [m p b q out]; simpl.
  destruct b as [tb|], q as [tq|], out as [s|]; exec h; eauto 6.
Qed.

(** Ending the script after a branch: [process.exit()] is reached exactly
    when the branch returns, and adds nothing to the trace. *)
Lemma run_then_exit (p : prog unit) (w : W) :
  res_outcome (run h (p ;;; (Exit : prog unit)) w)
    = match res_outcome (run h p w) return outcome unit with
      | Returned _ => Exited
      | Thrown e => Thrown e
      | Exited => Exited
      | StillRunning => StillRunning
      end
  ∧ res_trace (run h (p ;;; (Exit : prog unit)) w) = res_trace (run h p w).
Proof.
  rewrite run_bind.
  destruct (res_outcome (run h p w)); simpl; rewrite ?app_nil_r; auto.
Qed.

(** What the branch does with [--out]. *)
Lemma request_cmd_out (o : request_options) (w : W) :
  let tr := res_trace (run h (request_cmd o) w) in
  match o_out o with
  | None => stats tr = [] ∧ writes tr = [] ∧ clock_reads tr = []
  | Some s =>
      (stats tr = [] ∧ writes tr = [] ∧ clock_reads tr = [] ∧ requests tr = [])
      ∨ ∃ a c,
          stats tr = [(or_cwd s, a)]
          ∧ if directory_or_false a
            then ∃ now,
                clock_reads tr = [now]
                ∧ writes tr
                  = [(path_join (or_cwd s)
                        (request_file_name (toUpperCase (o_method o)) (o_path o) now),
                      c)]
            else clock_reads tr = [] ∧ writes tr = [(or_cwd s, c)]
  end.
Proof.
  unfold request_cmd. after_connect h w1 pre Hpre. simpl. drop_chatter Hpre.
  destruct o as [m p b q out]; simpl.
  destruct b as [tb|], q as [tq|], out as [s|]; exec h; eauto 8.
  all: right; eexists _, _; (split; [reflexivity|]); simpl; eauto.
Qed.

(** The request is issued with the parsed values, if it is issued at all. *)
Lemma request_cmd_parses (o : request_options) (w : W) :
  let r := run h (request_cmd o) w in
  match o_body o ≫= (λ t, Some (JSON_parse t)),
        o_query o ≫= (λ t, Some (JSON_parse t)) with
  | Some None, _ =>
      (∃ t, o_body o = Some t ∧ res_outcome r = Thrown (SyntaxError t))
      ∧ requests (res_trace r) = [] ∧ writes (res_trace r) = []
      ∧ stats (res_trace r) = []
  | _, Some None =>
      (∃ t, o_query o = Some t ∧ res_outcome r = Thrown (SyntaxError t))
      ∧ requests (res_trace r) = [] ∧ writes (res_trace r) = []
      ∧ stats (res_trace r) = []
  | _, _ =>
      ∃ cfg a,
        requests (res_trace r) = [(cfg, a)]
        ∧ cfg_data cfg = o_body o ≫= JSON_parse
        ∧ params cfg = o_query o ≫= JSON_parse
  end.
Proof.
  unfold request_cmd. after_connect h w1 pre Hpre. simpl. drop_chatter Hpre.
  destruct o as [m p b q out]; simpl.
  destruct b as [tb|], q as [tq|], out as [s|]; exec h;
    rewrite ?Eparse, ?Eparse0; simpl; eauto 8.
Qed.

End Request.


(** C9: a [--body] or [--query] that [JSON.parse] rejects ends the script
    with the uncaught [SyntaxError] before any [fs.stat], any request and any
    write; otherwise exactly one request is issued, and it carries the parsed
    body as [data] and the parsed query as [params] (nothing for an option
    that was not given). *)
Theorem request_parses_body_and_query `{Runtime} {W : Type} (h : handler W)
    (w : W) (o : request_options) (fuel : nat) :
  let r := run h (main (CmdRequest o) fuel) w in
  match o_body o ≫= (λ t, Some (JSON_parse t)),
        o_query o ≫= (λ t, Some (JSON_parse t)) with
  | Some None, _ =>
      (∃ t, o_body o = Some t ∧ res_outcome r = Thrown (SyntaxError t))
      ∧ requests (res_trace r) = [] ∧ writes (res_trace r) = []
      ∧ stats (res_trace r) = []
  | _, Some None =>
      (∃ t, o_query o = Some t ∧ res_outcome r = Thrown (SyntaxError t))
      ∧ requests (res_trace r) = [] ∧ writes (res_trace r) = []
      ∧ stats (res_trace r) = []
  | _, _ =>
      ∃ cfg a,
        requests (res_trace r) = [(cfg, a)]
        ∧ cfg_data cfg = o_body o ≫= JSON_parse
        ∧ params cfg = o_query o ≫= JSON_parse
  end.
Proof.
  intros r. subst r.
  change (main (CmdRequest o) fuel) with (request_cmd o ;;; (Exit : prog unit)).
  destruct (run_then_exit h (request_cmd o) w) as [Hout Htr].
  rewrite Hout, Htr. clear Hout Htr.
  assert (Hp := request_cmd_parses h o w). cbv zeta in Hp.
  destruct (o_body o ≫= (λ t, Some (JSON_parse t))) as [[j|]|],
           (o_query o ≫= (λ t, Some (JSON_parse t))) as [[j'|]|];
    try exact Hp.
  all: destruct Hp as ((t & Ht & ->) & ? & ? & ?); eauto 8.
Qed.

(** C3, with the file name the script builds: when [--out] names an existing
    directory and the request succeeds, exactly one file is written, inside
    that directory; its name
    is the upper-cased method, ["-"], the path without its first character
    and with every remaining ["/"] replaced by ["_"], ["-"], the value of
    [Date.now()] and [".json"]; its content is the pretty-printed JSON of the
    record of [statusCode] and [body]. *)
Theorem request_file_in_directory `{Runtime} {W : Type} (h : handler W) (w : W)
    (o : request_options) (fuel : nat) (s : string) (cfg : request_config)
    (res : AxiosResponse) :
  o_out o = Some s →
  stats (res_trace (run h (main (CmdRequest o) fuel) w))
    = [(or_cwd s, Resolved true)] →
  requests (res_trace (run h (main (CmdRequest o) fuel) w)) = [(cfg, inl res)] →
  ∃ now,
    clock_reads (res_trace (run h (main (CmdRequest o) fuel) w)) = [now]
    ∧ writes (res_trace (run h (main (CmdRequest o) fuel) w))
      = [(path_join (or_cwd s)
            (toUpperCase (o_method o) +:+ "-"
               +:+ replaceAll "/" "_" (substring1 (o_path o)) +:+ "-"
               +:+ pretty now +:+ ".json"),
          JSON_stringify
            (Plain (JObj [("statusCode", JNum (status res));
                          ("body", data res)])) 4)].
Proof.
  change (main (CmdRequest o) fuel) with (request_cmd o ;;; (Exit : prog unit)).
  destruct (run_then_exit h (request_cmd o) w) as [_ Htr]. rewrite Htr. clear Htr.
  intros Hout Hstat Hreq.
  assert (Ho := request_cmd_out h o w). cbv zeta in Ho. rewrite Hout in Ho.
  destruct Ho as [(Hs & _)|(a & c & Hs & Hw)]; rewrite Hs in Hstat; [discriminate|].
  injection Hstat as ->. cbv beta iota delta [directory_or_false] in Hw.
  destruct Hw as (now & Hclock & Hw).
  exists now. split; [exact Hclock|].
  destruct (request_cmd_writes_result h o w) as [Hnone|(cfg' & answer & target & Hr & Hw')].
  - rewrite Hnone in Hw. discriminate.
  - rewrite Hr in Hreq. injection Hreq as -> ->.
    rewrite Hw' in Hw. injection Hw as -> <-.
    rewrite Hw'. reflexivity.
Qed.

(** The theorem at work on the sample world. *)
Lemma request_file_in_directory_witness :
  ∃ now,
    clock_reads (res_trace (run Sample.serve
                              (main (H := Sample.runtime) (CmdRequest sample_request) 0)
                              Sample.start)) = [now]
    ∧ writes (res_trace (run Sample.serve
                           (main (H := Sample.runtime) (CmdRequest sample_request) 0)
                           Sample.start))
      = [(Sample.join (or_cwd "out")
            (toUpperCase "get" +:+ "-" +:+ replaceAll "/" "_" (substring1 "/a/B")
               +:+ "-" +:+ pretty now +:+ ".json"),
          Sample.stringify
            (Plain (JObj [("statusCode", JNum 200); ("body", JObj [])])) 4)].
Proof.
  apply (request_file_in_directory (H := Sample.runtime) Sample.serve Sample.start
           sample_request 0 "out"
           {| method := "GET"; url := "/a/B"; returnAxiosResponse := Some true;
              returnFullAxiosResponse := None; cfg_data := None; params := None |}
           {| status := 200; data := JObj [] |});
    vm_compute; reflexivity.
Defined.

(** C3 with the file name as the specification words it does not hold: in
    the sample world [out] is a directory, the request for ["/a/B"] succeeds
    with status 200 and the clock reads 17; the script names the file
    [GET-a_B-17.json], while the name with every slash of the path replaced
    would be [GET-_a_B-17.json]. *)
Lemma request_file_name_drops_first_character :
  stats (res_trace (run Sample.serve
                      (main (H := Sample.runtime) (CmdRequest sample_request) 0)
                      Sample.start))
    = [("out", Resolved true)]
  ∧ map snd (requests (res_trace (run Sample.serve
                                    (main (H := Sample.runtime)
                                       (CmdRequest sample_request) 0)
                                    Sample.start)))
    = [inl {| status := 200; data := JObj [] |}]
  ∧ map fst (writes (res_trace (run Sample.serve
                                  (main (H := Sample.runtime)
                                     (CmdRequest sample_request) 0)
                                  Sample.start)))
    = ["out/GET-a_B-17.json"]
  ∧ Sample.join "out" (spec_file_name (toUpperCase "get") "/a/B" 17)
    = "out/GET-_a_B-17.json"
  ∧ map fst (writes (res_trace (run Sample.serve
                                  (main (H := Sample.runtime)
                                     (CmdRequest sample_request) 0)
                                  Sample.start)))
    ≠ [Sample.join "out" (spec_file_name (toUpperCase "get") "/a/B" 17)].
Proof.
  vm_compute. repeat split. discriminate.
Qed.

(** ** The [listen] branch *)

#[local] Arguments listen_target : simpl never.
#[local] Arguments event_record : simpl never.

Lemma while_unfold (cond : prog bool) (body : prog unit) (fuel : nat) :
  while cond body (S fuel)
  = (c <- cond ;; if c then body ;;; while cond body fuel else Ret tt).
Proof. reflexivity. Qed.

Section Listen.
Context `{Runtime} {W : Type} (h : handler W) (fmt : string → string).

Let print (text : string) : prog unit := trigger (ConsoleLog (fmt text)).
Let rejected (e : exn) : prog unit := trigger (CallbackRejected e).

(** One call of the callback: one append of the record of the event, whether
    or not the append succeeds, and no other call except to the console. *)
Lemma run_callback (out : string) (isDir : bool) (event : json) (w : W) :
  truthy_string out = true →
  res_outcome (run h (catch (on_event print (Some out) isDir event) rejected) w)
    = Returned tt
  ∧ appends (res_trace (run h (catch (on_event print (Some out) isDir event) rejected) w))
    = [(listen_target out isDir, event_record event)]
  ∧ delays (res_trace (run h (catch (on_event print (Some out) isDir event) rejected) w))
    = []
  ∧ forallb is_loop_event
      (res_trace (run h (catch (on_event print (Some out) isDir event) rejected) w))
    = true.
Proof.
  intros Htruthy. unfold on_event. rewrite Htruthy. simpl.
  next_answer h. destruct a as [[]|reason]; simpl; next_answer h; auto.
Qed.

Lemma run_callback_silent (isDir : bool) (event : json) (w : W) :
  res_outcome (run h (catch (on_event print None isDir event) rejected) w)
    = Returned tt
  ∧ appends (res_trace (run h (catch (on_event print None isDir event) rejected) w))
    = []
  ∧ delays (res_trace (run h (catch (on_event print None isDir event) rejected) w))
    = []
  ∧ forallb is_loop_event
      (res_trace (run h (catch (on_event print None isDir event) rejected) w))
    = true.
Proof. simpl. next_answer h. auto. Qed.

Lemma run_deliver (out : option string) (isDir : bool) (events : list json) (w : W) :
  configured out →
  res_outcome (run h (deliver (on_event print out isDir) events) w) = Returned tt
  ∧ appends (res_trace (run h (deliver (on_event print out isDir) events) w))
    = expected_appends out isDir events
  ∧ delays (res_trace (run h (deliver (on_event print out isDir) events) w)) = []
  ∧ forallb is_loop_event
      (res_trace (run h (deliver (on_event print out isDir) events) w))
    = true.
Proof.
  intros Hout. revert w.
  induction events as [|event events IH]; intros w.
  { destruct out; simpl; auto. }
  change (deliver (on_event print out isDir) (event :: events))
    with (catch (on_event print out isDir event) rejected ;;;
          deliver (on_event print out isDir) events).
  rewrite run_bind.
  assert (Hcb :
    res_outcome (run h (catch (on_event print out isDir event) rejected) w)
      = Returned tt
    ∧ appends (res_trace (run h (catch (on_event print out isDir event) rejected) w))
      = expected_appends out isDir [event]
    ∧ delays (res_trace (run h (catch (on_event print out isDir event) rejected) w))
      = []
    ∧ forallb is_loop_event
        (res_trace (run h (catch (on_event print out isDir event) rejected) w))
      = true).
  { destruct out as [o|]; [apply run_callback, Hout | apply run_callback_silent]. }
  destruct Hcb as (Hret & Happ & Hdel & Hloop). rewrite Hret.
  cbv beta iota. cbn [res_outcome res_trace res_world].
  destruct (IH (res_world (run h (catch (on_event print out isDir event) rejected) w)))
    as (Hret' & Happ' & Hdel' & Hloop').
  unfold appends, delays in *. rewrite !omap_app, forallb_app.
  rewrite Hret', Happ, Happ', Hdel, Hdel', Hloop, Hloop'.
  destruct out; simpl; auto.
Qed.

(** The idle loop, observed for [fuel] iterations: it is still running,
    it has waited [fuel] times 100 ms, and it has made exactly the expected
    append for every event delivered meanwhile. *)
Lemma run_idle (out : option string) (isDir : bool) (fuel : nat) (w : W) :
  configured out →
  res_outcome
    (run h (while (Ret true) (await_delay 100 (on_event print out isDir)) fuel) w)
    = StillRunning
  ∧ map fst (delays (res_trace
      (run h (while (Ret true) (await_delay 100 (on_event print out isDir)) fuel) w)))
    = replicate fuel 100
  ∧ appends (res_trace
      (run h (while (Ret true) (await_delay 100 (on_event print out isDir)) fuel) w))
    = expected_appends out isDir (delivered (res_trace
        (run h (while (Ret true) (await_delay 100 (on_event print out isDir)) fuel) w)))
  ∧ forallb is_loop_event (res_trace
      (run h (while (Ret true) (await_delay 100 (on_event print out isDir)) fuel) w))
    = true.
Proof.
  intros Hout. revert w.
  induction fuel as [|fuel IH]; intros w.
  { destruct out; simpl; auto. }
  rewrite while_unfold.
  change (run h (c <- Ret true ;;
                 if c
                 then await_delay 100 (on_event print out isDir) ;;;
                      while (Ret true) (await_delay 100 (on_event print out isDir)) fuel
                 else Ret tt) w)
    with (let a := h _ (Delay 100) w in
          let r := run h (deliver (on_event print out isDir) a.1 ;;;
                          while (Ret true)
                            (await_delay 100 (on_event print out isDir)) fuel) a.2 in
          {| res_outcome := res_outcome r;
             res_trace := Ev (Delay 100) a.1 :: res_trace r;
             res_world := res_world r |}).
  destruct (h _ (Delay 100) w) as [events w1]. cbv zeta.
  cbn [fst snd res_outcome res_trace res_world].
  rewrite run_bind.
  destruct (run_deliver out isDir events w1 Hout) as (Hret & Happ & Hdel & Hloop).
  rewrite Hret. cbv beta iota. cbn [res_outcome res_trace res_world].
  destruct (IH (res_world (run h (deliver (on_event print out isDir) events) w1)))
    as (Hrun & Hdelays & Happ' & Hloop').
  unfold delivered, appends, delays in *.
  cbn [omap list_omap ev_delay ev_append forallb is_loop_event].
  rewrite !omap_app, forallb_app, Hdel, Hloop, Hloop', Hrun, Happ, Happ'.
  cbn [app map fst snd List.concat]. rewrite Hdelays.
  repeat split.
  destruct out as [o|]; simpl; [|reflexivity].
  now rewrite map_app.
Qed.

(** The whole branch, with [--out] given. *)
Lemma listen_with_out (o : listen_options) (s : string) (fuel : nat) (w : W) :
  l_out o = Some s →
  res_outcome (run h (listen_with print o fuel) w) = StillRunning
  ∧ listeners (res_trace (run h (listen_with print o fuel) w))
    = [(l_name o, l_path o, l_type o)]
  ∧ map fst (delays (res_trace (run h (listen_with print o fuel) w)))
    = replicate fuel 100
  ∧ writes (res_trace (run h (listen_with print o fuel) w)) = []
  ∧ ∃ a,
      stats (res_trace (run h (listen_with print o fuel) w)) = [(or_cwd s, a)]
      ∧ appends (res_trace (run h (listen_with print o fuel) w))
        = map (λ event,
                 (listen_target (or_cwd s) (directory_or_false a),
                  event_record event))
            (delivered (res_trace (run h (listen_with print o fuel) w))).
Proof.
  intros Hs. unfold listen_with. rewrite Hs, resolve_out_Some.
  rewrite run_bind.
  destruct (run_connect h (fmt "Waiting for League of Legends client...") w)
    as [Hret Hpre].
  change (trigger (ConsoleLog (fmt "Waiting for League of Legends client...")))
    with (print "Waiting for League of Legends client...") in Hret, Hpre.
  rewrite Hret. clear Hret.
  generalize dependent
    (res_trace (run h (connect (print "Waiting for League of Legends client...")) w)).
  generalize
    (res_world (run h (connect (print "Waiting for League of Legends client...")) w)).
  intros w1 pre Hpre. cbv beta iota. cbn [res_outcome res_trace res_world].
  cbn [is_directory bind run trigger].
  destruct (h _ (FsStat (or_cwd s)) w1) as [a w2].
  cbn [fst snd res_outcome res_trace res_world].
  destruct (h _ (AddLCUEventListener (l_name o) (l_path o) (l_type o)) w2)
    as [[] w3].
  cbn [fst snd res_outcome res_trace res_world].
  destruct (run_idle (Some (or_cwd s)) (directory_or_false a) fuel w3
              (or_cwd_truthy s)) as (Hrun & Hdelays & Happ & Hloop).
  rewrite Hrun. unfold listeners, writes, stats, delivered, appends, delays in *.
  rewrite !omap_app.
  rewrite (omap_chatter ev_listener _ ev_listener_chatter Hpre),
    (omap_chatter ev_write _ ev_write_chatter Hpre),
    (omap_chatter ev_stat _ ev_stat_chatter Hpre),
    (omap_chatter ev_append _ ev_append_chatter Hpre),
    (omap_chatter ev_delay _ ev_delay_chatter Hpre).
  cbn [app omap list_omap ev_listener ev_write ev_stat ev_append ev_delay].
  rewrite (omap_none is_loop_event ev_listener _ ltac:(chatter_none) Hloop),
    (omap_none is_loop_event ev_write _ ltac:(chatter_none) Hloop),
    (omap_none is_loop_event ev_stat _ ltac:(chatter_none) Hloop).
  rewrite Hdelays, Happ. eauto 8.
Qed.


End Listen.


(** ** The [request] branch of the older script *)

Section LegacyRequest.
Context `{Runtime} {W : Type} (h : handler W).

(** The older branch always issues one request, for the lower-cased path;
    a rejection of either kind is rethrown on the spot, before any write; a
    response is written as the record of [statusCode] and [data]. *)
Lemma legacy_request_cmd_run (o : request_options) (w : W) :
  ∃ a,
    requests (res_trace (run h (Legacy.request_cmd o) w))
      = [({| method := toUpperCase (o_method o);
             url := toLowerCase (o_path o);
             returnAxiosResponse := None;
             returnFullAxiosResponse := Some true;
             cfg_data := None;
             params := None |}, a)]
    ∧ match a with
      | inr rej =>
          res_outcome (run h (Legacy.request_cmd o) w)
            = Thrown (RequestRejected rej)
          ∧ writes (res_trace (run h (Legacy.request_cmd o) w)) = []
      | inl res =>
          (res_outcome (run h (Legacy.request_cmd o) w) = Returned tt
           ∨ ∃ reason, res_outcome (run h (Legacy.request_cmd o) w)
                       = Thrown (ExternalError reason))
          ∧ (writes (res_trace (run h (Legacy.request_cmd o) w)) = []
             ∨ ∃ target,
                 writes (res_trace (run h (Legacy.request_cmd o) w))
                 = [(target,
                     JSON_stringify
                       (Plain (JObj [("statusCode", JNum (status res));
                                     ("data", data res)])) 4)])
      end.
Proof.
  unfold Legacy.request_cmd. after_connect h w1 pre Hpre. simpl. drop_chatter Hpre.
  destruct o as [m p b q out]; simpl.
  destruct out as [s|]; exec h; eexists; (split; [reflexivity|]); simpl; eauto 8.
Qed.

End LegacyRequest.

Section NewRequest.
Context `{Runtime} {W : Type} (h : handler W).

End NewRequest.

(** ** The two scripts, whole *)

Section Scripts.
Context `{Runtime} {W : Type} (h : handler W).

Lemma main_listen_out (o : listen_options) (s : string) (fuel : nat) (w : W) :
  l_out o = Some s →
  listens_with_out o s fuel (run h (main (CmdListen o) fuel) w).
Proof.
  intros Hs. unfold listens_with_out.
  change (main (CmdListen o) fuel)
    with (listen_with log o fuel ;;; (Exit : prog unit)).
  destruct (run_then_exit h (listen_with log o fuel) w) as [Hout Htr].
  rewrite Hout, Htr. clear Hout Htr.
  destruct (listen_with_out h (λ t, "[hasagi] " +:+ t) o s fuel w Hs)
    as (Hrun & Hrest).
  change (listen_with (λ text, trigger (ConsoleLog ("[hasagi] " +:+ text))) o fuel)
    with (listen_with log o fuel) in Hrun, Hrest.
  rewrite Hrun. split; [reflexivity|exact Hrest].
Qed.

Lemma legacy_main_listen_out (o : listen_options) (s : string) (fuel : nat) (w : W) :
  l_out o = Some s →
  listens_with_out o s fuel (run h (Legacy.main (CmdListen o) fuel) w).
Proof.
  intros Hs. unfold listens_with_out.
  change (Legacy.main (CmdListen o) fuel)
    with (listen_with Legacy.console_log o fuel ;;; (Exit : prog unit)).
  destruct (run_then_exit h (listen_with Legacy.console_log o fuel) w) as [Hout Htr].
  rewrite Hout, Htr. clear Hout Htr.
  destruct (listen_with_out h (λ t, t) o s fuel w Hs) as (Hrun & Hrest).
  change (listen_with (λ text, trigger (ConsoleLog text)) o fuel)
    with (listen_with Legacy.console_log o fuel) in Hrun, Hrest.
  rewrite Hrun. split; [reflexivity|exact Hrest].
Qed.



End Scripts.





(** C10: when [fs.stat] says that the resolved target is a directory, every
    append goes to the file [lcu-websocket-events.txt] inside it, whatever
    the filter, the types and the events; in both scripts. *)
Theorem listen_directory_file_is_fixed `{Runtime} {W : Type} (h : handler W)
    (w : W) (o : listen_options) (s : string) (fuel : nat) :
  l_out o = Some s →
  (stats (res_trace (run h (main (CmdListen o) fuel) w))
     = [(or_cwd s, Resolved true)] →
   ∀ call, call ∈ appends (res_trace (run h (main (CmdListen o) fuel) w)) →
           call.1 = path_join (or_cwd s) "lcu-websocket-events.txt")
  ∧ (stats (res_trace (run h (Legacy.main (CmdListen o) fuel) w))
       = [(or_cwd s, Resolved true)] →
     ∀ call, call ∈ appends (res_trace (run h (Legacy.main (CmdListen o) fuel) w)) →
             call.1 = path_join (or_cwd s) "lcu-websocket-events.txt").
Proof.
  intros Hs. split.
  - destruct (main_listen_out h o s fuel w Hs) as (_ & _ & _ & _ & a & Hstat & Happ).
    rewrite Hstat, Happ. intros [= ->] call (event & -> & _)%list_elem_of_fmap.
    reflexivity.
  - destruct (legacy_main_listen_out h o s fuel w Hs)
      as (_ & _ & _ & _ & a & Hstat & Happ).
    rewrite Hstat, Happ. intros [= ->] call (event & -> & _)%list_elem_of_fmap.
    reflexivity.
Qed.

(** The theorem at work: the three appends of the sample run. *)
Lemma listen_directory_file_is_fixed_witness :
  map fst (appends (res_trace (run Sample.serve
                                 (main (H := Sample.runtime)
                                    (CmdListen sample_listen) 4)
                                 Sample.start)))
    = replicate 3 "out/lcu-websocket-events.txt"
  ∧ ∀ call,
      call ∈ appends (res_trace (run Sample.serve
                                   (main (H := Sample.runtime)
                                      (CmdListen sample_listen) 4)
                                   Sample.start)) →
      call.1 = Sample.join (or_cwd "out") "lcu-websocket-events.txt".
Proof.
  split; [vm_compute; reflexivity|].
  apply (proj1 (listen_directory_file_is_fixed (H := Sample.runtime)
                  Sample.serve Sample.start sample_listen "out" 4 eq_refl)).
  vm_compute. reflexivity.
Defined.


(** C2 on the sample world: the target ["result.json"] does not exist,
    [fs.stat] is rejected, and the file written is the target. *)
Example sample_missing_target :
  stats (res_trace (run Sample.serve
                      (main (H := Sample.runtime)
                         (CmdRequest {| o_method := "get"; o_path := "/a";
                                        o_body := None; o_query := None;
                                        o_out := Some "result.json" |}) 0)
                      Sample.start))
    = [("result.json", Rejected "ENOENT")]
  ∧ map fst (writes (res_trace (run Sample.serve
                      (main (H := Sample.runtime)
                         (CmdRequest {| o_method := "get"; o_path := "/a";
                                        o_body := None; o_query := None;
                                        o_out := Some "result.json" |}) 0)
                      Sample.start)))
    = ["result.json"].
Proof. vm_compute. split; reflexivity. Qed.



(** ** The scripts on the sample world *)

(** The loop combinator does leave a loop whose condition is false; only the
    condition [true] of [listen] keeps it running at every horizon. *)
Example while_false_returns {W : Type} (h : handler W) (w : W)
    (body : prog unit) (fuel : nat) :
  run h (while (Ret false) body (S fuel)) w
  = {| res_outcome := Returned tt; res_trace := []; res_world := w |}.
Proof. reflexivity. Qed.

(** A protocol error, 404 "Not Found": the script prints the status, the code
    and the message, writes the error into the directory and ends at
    [process.exit()]. *)
Example sample_protocol_error :
  let not_found :=
    {| lcu_statusCode := 404; lcu_errorCode := "RESOURCE_NOT_FOUND";
       lcu_message := "Not Found"; implementationDetails := None |} in
  let r := run Sample.serve
             (main (H := Sample.runtime) (CmdRequest sample_request) 0)
             (Sample.answering (inr (RejectLCU not_found)) Sample.start) in
  res_outcome r = Exited
  ∧ logs (res_trace r)
    = ["[hasagi] Waiting for League of Legends client...";
       "[hasagi] Sending 'GET' request to 'https://127.0.0.1:2999/a/B'...";
       "[hasagi] Received response with non-success status code '404'.";
       "[hasagi] Error code: 'RESOURCE_NOT_FOUND'.";
       "[hasagi] Error message: 'Not Found'"]
  ∧ map fst (writes (res_trace r)) = ["out/GET-a_B-17.json"].
Proof. vm_compute. repeat split. Qed.

(** The same rejection in the older script: it dies of it. *)
Example sample_legacy_rethrows :
  let not_found :=
    {| lcu_statusCode := 404; lcu_errorCode := "RESOURCE_NOT_FOUND";
       lcu_message := "Not Found"; implementationDetails := None |} in
  let r := run Sample.serve
             (Legacy.main (H := Sample.runtime) (CmdRequest sample_request) 0)
             (Sample.answering (inr (RejectLCU not_found)) Sample.start) in
  res_outcome r = Thrown (RequestRejected (RejectLCU not_found))
  ∧ writes (res_trace r) = []
  ∧ logs (res_trace r)
    = ["Waiting for League of Legends client...";
       "Waiting for League client...";
       "Sending 'GET' request to 'https://127.0.0.1:2999/a/b'..."].
Proof. vm_compute. repeat split. Qed.

(** A body that is not JSON: the script dies before asking anything of the
    file system or of the client. *)
Example sample_malformed_body :
  let r := run Sample.serve
             (main (H := Sample.runtime)
                (CmdRequest {| o_method := "post"; o_path := "/a";
                               o_body := Some "{oops"; o_query := None;
                               o_out := Some "out" |}) 0)
             Sample.start in
  res_outcome r = Thrown (SyntaxError "{oops")
  ∧ stats (res_trace r) = []
  ∧ requests (res_trace r) = []
  ∧ writes (res_trace r) = [].
Proof. vm_compute. repeat split. Qed.

(** Three events over four waits: the file holds the three records, whole
    and in order. *)
Example sample_listen_file :
  let r := run Sample.serve
             (main (H := Sample.runtime) (CmdListen sample_listen) 4)
             Sample.start in
  res_outcome r = StillRunning
  ∧ Sample.files (res_world r) !! "out/lcu-websocket-events.txt"
    = Some (event_record (H := Sample.runtime) (JStr "a")
              +:+ event_record (H := Sample.runtime) (JStr "b")
              +:+ event_record (H := Sample.runtime) JNull).
Proof. vm_compute. repeat split. Qed.

(** * Further properties *)

(** ** Strings and file names *)

Lemma has_char_append (c : ascii) (a b : string) :
  has_char c (a +:+ b) = has_char c a || has_char c b.
Proof.
  induction a as [|x a IH]; [reflexivity|].
  change (has_char c (String x (a +:+ b)) = has_char c (String x a) || has_char c b).
  cbn [has_char]. rewrite IH. now rewrite orb_assoc.
Qed.

Lemma has_char_replaceAll (a b : ascii) (s : string) :
  a ≠ b → has_char a (replaceAll a b s) = false.
Proof.
  intros Hab. induction s as [|x s IH]; [reflexivity|].
  unfold replaceAll in *. cbn [map_string has_char]. rewrite IH, orb_false_r.
  destruct (Ascii.eqb_spec x a) as [->|Hx].
  - now apply Ascii.eqb_neq.
  - now apply Ascii.eqb_neq.
Qed.

Lemma pretty_N_char_no_slash (x : N) : Ascii.eqb (pretty_N_char x) "/" = false.
Proof. unfold pretty_N_char. repeat case_match; reflexivity. Qed.

Lemma pretty_N_go_no_slash (x : N) (s : string) :
  has_char "/" (pretty_N_go x s) = has_char "/" s.
Proof.
  revert s. induction (N.lt_wf_0 x) as [x _ IH]; intros s.
  destruct (decide (x = 0%N)) as [->|Hx]; [now rewrite pretty_N_go_0|].
  rewrite pretty_N_go_step by lia.
  rewrite IH by (apply N.div_lt; lia).
  cbn [has_char]. now rewrite pretty_N_char_no_slash.
Qed.

Lemma pretty_N_no_slash (x : N) : has_char "/" (pretty x) = false.
Proof.
  unfold pretty, pretty_N. case_decide; [reflexivity|].
  now rewrite pretty_N_go_no_slash.
Qed.

Lemma pretty_Z_no_slash (z : Z) : has_char "/" (pretty z) = false.
Proof.
  unfold pretty, pretty_Z. case_match.
  - reflexivity.
  - apply pretty_N_no_slash.
  - rewrite has_char_append. cbn [has_char]. apply pretty_N_no_slash.
Qed.



Lemma append_cancel_l (a x y : string) : a +:+ x = a +:+ y → x = y.
Proof.
  induction a as [|c a IH]; [trivial|].
  intros Heq. apply IH.
  change (String c (a +:+ x) = String c (a +:+ y)) in Heq. now injection Heq.
Qed.

Lemma length_append (a b : string) :
  String.length (a +:+ b) = (String.length a + String.length b)%nat.
Proof.
  induction a as [|c a IH]; [reflexivity|].
  change (S (String.length (a +:+ b)) = S (String.length a + String.length b)).
  now rewrite IH.
Qed.

Lemma append_cancel_r (s x y : string) : x +:+ s = y +:+ s → x = y.
Proof.
  revert y. induction x as [|c x IH]; intros y Heq.
  - destruct y as [|d y]; [reflexivity|].
    apply (f_equal String.length) in Heq.
    rewrite !length_append in Heq. cbn [String.length] in Heq. lia.
  - destruct y as [|d y].
    + apply (f_equal String.length) in Heq.
      rewrite !length_append in Heq. cbn [String.length] in Heq. lia.
    + change (String c (x +:+ s) = String d (y +:+ s)) in Heq.
      injection Heq as -> Heq. now rewrite (IH y Heq).
Qed.

Lemma request_file_name_slash (m p : string) (now : Z) :
  has_char "/" (request_file_name m p now) = has_char "/" m.
Proof.
  unfold request_file_name.
  rewrite !has_char_append, has_char_replaceAll by discriminate.
  rewrite pretty_Z_no_slash. cbn [has_char Ascii.eqb Bool.eqb orb].
  now rewrite !orb_false_r.
Qed.

(** X12: two results of the same method and path get different file names
    whenever [Date.now()] differs, so that a later result does not overwrite
    an earlier one in the directory. *)
Theorem request_file_name_tells_timestamps_apart (m p : string) (t1 t2 : Z) :
  t1 ≠ t2 → request_file_name m p t1 ≠ request_file_name m p t2.
Proof.
  unfold request_file_name. intros Hne Heq. apply Hne.
  do 4 apply append_cancel_l in Heq.
  apply append_cancel_r in Heq.
  now apply (inj pretty).
Qed.

Lemma request_file_name_tells_timestamps_apart_witness :
  request_file_name "GET" "/a/B" 17 ≠ request_file_name "GET" "/a/B" 18.
Proof.
  apply (request_file_name_tells_timestamps_apart "GET" "/a/B" 17 18). lia.
Defined.

Section Connect.
Context {W : Type} (h : handler W).

Lemma run_times_trace (line : string) (n : nat) (w : W) :
  res_trace (run h (times n (trigger (ConsoleLog line))) w)
  = replicate n (Ev (ConsoleLog line) tt).
Proof.
  revert w. induction n as [|n IH]; intros w; [reflexivity|].
  simpl. destruct (h _ (ConsoleLog line) w) as [[] w1]. simpl.
  now rewrite IH.
Qed.

Lemma run_connect_trace (line : string) (w : W) :
  ∃ n,
    res_outcome (run h (connect (trigger (ConsoleLog line))) w) = Returned tt
    ∧ res_trace (run h (connect (trigger (ConsoleLog line))) w)
      = Ev Connect n :: replicate n (Ev (ConsoleLog line) tt).
Proof.
  exists (h _ Connect w).1. split; [apply run_connect|].
  unfold connect. simpl. now rewrite run_times_trace.
Qed.

Lemma omap_replicate {B : Type} (f : event → option B) (ev : event) (n : nat) :
  omap f (replicate n ev)
  = match f ev with Some b => replicate n b | None => [] end.
Proof.
  induction n as [|n IH]; [now destruct (f ev)|].
  cbn [replicate omap list_omap]. rewrite IH. now destruct (f ev).
Qed.

End Connect.

(** Split a run at the end of [client.connect()], keeping the number [n] of
    failed attempts: the prefix of the trace is the [connect] call and [n]
    notices. *)
Ltac after_connect_with h n w' :=
  rewrite run_bind;
  match goal with
  | |- context [run h (connect (log ?text)) ?w] =>
      let Hout := fresh "Hout" in
      let Htr := fresh "Htr" in
      destruct (run_connect_trace h ("[hasagi] " +:+ text) w) as (n & Hout & Htr);
      change (trigger (ConsoleLog ("[hasagi] " +:+ text))) with (log text) in Hout, Htr;
      rewrite Hout, Htr; clear Hout Htr;
      generalize (res_world (run h (connect (log text)) w));
      intros w'
  | |- context [run h (connect (Legacy.console_log ?text)) ?w] =>
      let Hout := fresh "Hout" in
      let Htr := fresh "Htr" in
      destruct (run_connect_trace h text w) as (n & Hout & Htr);
      change (trigger (ConsoleLog text)) with (Legacy.console_log text) in Hout, Htr;
      rewrite Hout, Htr; clear Hout Htr;
      generalize (res_world (run h (connect (Legacy.console_log text)) w));
      intros w'
  end;
  cbv beta iota.


(** Read a trace that starts with the calls of [client.connect()]. *)
Ltac read_notices :=
  unfold connects, ports, tokens, logs, writes, appends, mkdirs, stats,
    requests, delays, clock_reads, listeners, fetches, swaggers, typescripts;
  rewrite ?omap_app, ?omap_replicate;
  cbn [omap list_omap ev_connect ev_port ev_token ev_log ev_write ev_append
         ev_mkdir ev_stat ev_request ev_delay ev_clock ev_listener ev_fetch
         ev_swagger ev_typescript app].

(** X2: [credentials] waits for the client, asks it once for the port and
    once for the token, prints after the notices one line, the pretty JSON of
    the [url] built from the port and of [Authorization] built from the
    token, makes no other call and ends at [process.exit()]. *)
Theorem credentials_prints_url_and_token `{Runtime} {W : Type} (h : handler W)
    (w : W) (fuel : nat) :
  ∃ n port token,
    res_outcome (run h (main CmdCredentials fuel) w) = Exited
    ∧ connects (res_trace (run h (main CmdCredentials fuel) w)) = [n]
    ∧ ports (res_trace (run h (main CmdCredentials fuel) w)) = [port]
    ∧ tokens (res_trace (run h (main CmdCredentials fuel) w)) = [token]
    ∧ logs (res_trace (run h (main CmdCredentials fuel) w))
      = (replicate n "[hasagi] Waiting for League of Legends client..."
         ++ ["[hasagi] "
               +:+ JSON_stringify
                     (Plain (JObj [("url", JStr ("https://127.0.0.1:" +:+ pretty port));
                                   ("Authorization", JStr ("Basic " +:+ token))]))
                     4])%list
    ∧ List.length (res_trace (run h (main CmdCredentials fuel) w)) = (n + 4)%nat.
Proof.
  change (main CmdCredentials fuel) with (credentials_cmd ;;; (Exit : prog unit)).
  destruct (run_then_exit h credentials_cmd w) as [Hout Htr].
  rewrite Hout, Htr. clear Hout Htr.
  unfold credentials_cmd. after_connect_with h n w1.
  cbn [res_outcome res_trace res_world]. simpl.
  do 3 next_answer h.
  exists n, a, a0. read_notices.
  rewrite length_app. cbn [List.length]. rewrite length_replicate.
  repeat split. lia.
Qed.

Ltac exec_schema h :=
  simpl; repeat (next_answer h;
                 match goal with
                 | a : promise _ |- _ => destruct a as [?|?]; simpl
                 end);
  repeat match goal with u : unit |- _ => destruct u end.

(** X3: for every combination of [--raw], [--swagger] and [--typescript]
    the extended schema is fetched once if a target is given and not at all
    otherwise, [getSwagger] and [getTypeScript] are called at most once,
    [getSwagger] only if Swagger or TypeScript is asked for; the directories
    made and the files written are, in this order, those of raw, Swagger and
    TypeScript, all of them when the branch completes and a prefix of them
    when it dies. *)
Theorem schema_shares_fetch_and_derivation `{Runtime} {W : Type} (h : handler W)
    (w : W) (o : schema_options) :
  let r := run h (schema_cmd o) w in
  (List.length (fetches (res_trace r))
   = if defined (s_raw o) || defined (s_swagger o) || defined (s_typescript o)
     then 1%nat else 0%nat)
  ∧ (List.length (swaggers (res_trace r)) ≤ 1)%nat
  ∧ (List.length (generations (res_trace r)) ≤ 1)%nat
  ∧ (swaggers (res_trace r) ≠ [] →
     defined (s_swagger o) || defined (s_typescript o) = true)
  ∧ map fst (writes (res_trace r)) `prefix_of` schema_files o
  ∧ mkdirs (res_trace r) `prefix_of` schema_dirs o
  ∧ (res_outcome r = Returned tt →
     map fst (writes (res_trace r)) = schema_files o
     ∧ mkdirs (res_trace r) = schema_dirs o
     ∧ List.length (swaggers (res_trace r))
       = if defined (s_swagger o) || defined (s_typescript o) then 1%nat else 0%nat).
Proof.
  destruct o as [[t|] ns [s|] [r|]]; unfold schema_files, schema_dirs.
  all: exec_schema h.
  all: repeat split; try discriminate; try lia; try (intros; reflexivity).
  all: try (eexists; reflexivity).
  all: intros Hne; now contradiction Hne.
Qed.

(** X4: with only [--raw] given neither [getSwagger] nor [getTypeScript] is
    called, and a completed run has made the resolved directory and written
    the console, full and extended schemas of the one fetch, pretty-printed,
    in this order. *)
Theorem schema_raw_only `{Runtime} {W : Type} (h : handler W) (w : W)
    (r : string) (ns : option string) :
  let res := run h (schema_cmd (only_raw r ns)) w in
  swaggers (res_trace res) = []
  ∧ generations (res_trace res) = []
  ∧ (res_outcome res = Returned tt →
     ∃ help,
       fetches (res_trace res) = [(true, Resolved help)]
       ∧ mkdirs (res_trace res) = [or_cwd r]
       ∧ writes (res_trace res)
         = [(path_join (or_cwd r) "console-schema.json",
             JSON_stringify (Plain (consoleSchema help)) 4);
            (path_join (or_cwd r) "full-schema.json",
             JSON_stringify (Plain (fullSchema help)) 4);
            (path_join (or_cwd r) "extended-schema.json",
             JSON_stringify (Plain (extendedSchema help)) 4)]).
Proof.
  exec_schema h; repeat split; try discriminate; eauto.
Qed.


(** X6: the [schema] branch returns or dies of a rejected promise of a
    collaborator; the non-null assertions on [swaggerObj] never meet
    [undefined]. *)
Theorem schema_dies_only_of_rejections `{Runtime} {W : Type} (h : handler W)
    (w : W) (o : schema_options) :
  res_outcome (run h (schema_cmd o) w) = Returned tt
  ∨ ∃ reason, res_outcome (run h (schema_cmd o) w) = Thrown (ExternalError reason).
Proof.
  destruct o as [[t|] ns [s|] [r|]]; exec_schema h; eauto.
Qed.

(** X7: when [getExtendedHelp] is rejected the script dies of that
    rejection, and the fetch is the only call it has made: no directory, no
    file, no derivation. *)
Theorem schema_without_help_does_nothing `{Runtime} {W : Type} (h : handler W)
    (w : W) (o : schema_options) (fuel : nat) (reason : string) :
  fetches (res_trace (run h (main (CmdSchema o) fuel) w))
    = [(true, Rejected reason)] →
  res_outcome (run h (main (CmdSchema o) fuel) w) = Thrown (ExternalError reason)
  ∧ List.length (res_trace (run h (main (CmdSchema o) fuel) w)) = 1%nat.
Proof.
  change (main (CmdSchema o) fuel) with (schema_cmd o ;;; (Exit : prog unit)).
  destruct (run_then_exit h (schema_cmd o) w) as [Hout Htr].
  rewrite Hout, Htr. clear Hout Htr.
  destruct o as [[t|] ns [s|] [r|]]; simpl; try discriminate.
  all: next_answer h; destruct a as [help|reason']; simpl.
  all: try (intros [= <-]; auto).
  all: exec_schema h; discriminate.
Qed.

(** Gather the occurrences of the run under one predicate, so that the case
    analysis works on one copy of it. *)
Ltac focus_run h P :=
  match goal with
  | |- context [run h ?p ?w] =>
      pattern (run h p w);
      match goal with |- ?F _ => set (P := F) end
  end.

Section More.
Context `{Runtime} {W : Type} (h : handler W).

Lemma request_cmd_stdout (o : request_options) (w : W) :
  ∃ n,
    connects (res_trace (run h (request_cmd o) w)) = [n]
    ∧ ((∃ t, res_outcome (run h (request_cmd o) w) = Thrown (SyntaxError t)
             ∧ logs (res_trace (run h (request_cmd o) w))
               = replicate n "[hasagi] Waiting for League of Legends client..."
             ∧ write_answers (res_trace (run h (request_cmd o) w)) = []
             ∧ requests (res_trace (run h (request_cmd o) w)) = [])
       ∨ ∃ port cfg answer,
           ports (res_trace (run h (request_cmd o) w)) = [port]
           ∧ requests (res_trace (run h (request_cmd o) w)) = [(cfg, answer)]
           ∧ method cfg = toUpperCase (o_method o)
           ∧ returnAxiosResponse cfg = Some true
           ∧ returnFullAxiosResponse cfg = None
           ∧ ((res_outcome (run h (request_cmd o) w) = Returned tt
               ∧ Forall (λ x, x.2 = Resolved tt)
                   (write_answers (res_trace (run h (request_cmd o) w)))
               ∧ logs (res_trace (run h (request_cmd o) w))
                 = (replicate n "[hasagi] Waiting for League of Legends client..."
                    ++ ["[hasagi] Sending '" +:+ toUpperCase (o_method o)
                          +:+ "' request to 'https://127.0.0.1:"
                          +:+ pretty port +:+ o_path o +:+ "'..."]
                    ++ result_lines answer)%list)
              ∨ ∃ p c reason,
                  res_outcome (run h (request_cmd o) w)
                    = Thrown (ExternalError reason)
                  ∧ write_answers (res_trace (run h (request_cmd o) w))
                    = [(p, c, Rejected reason)]
                  ∧ logs (res_trace (run h (request_cmd o) w))
                    = (replicate n "[hasagi] Waiting for League of Legends client..."
                       ++ ["[hasagi] Sending '" +:+ toUpperCase (o_method o)
                             +:+ "' request to 'https://127.0.0.1:"
                             +:+ pretty port +:+ o_path o +:+ "'..."])%list)).
Proof.
  unfold request_cmd. after_connect_with h n w1.
  cbn [res_outcome res_trace res_world].
  exists n. unfold connects, ports, requests, logs, write_answers, result_lines, details_line.
  rewrite !omap_app.
  cbn [omap list_omap ev_connect ev_port ev_request ev_log ev_write_answer].
  rewrite !omap_replicate.
  cbn [ev_connect ev_port ev_request ev_log ev_write_answer app].
  destruct o as [m p b q out]; cbn [o_method o_path o_body o_query o_out].
  destruct b as [tb|], q as [tq|], out as [s|].
  all: focus_run h P.
  all: exec h.
  all: subst P; cbv beta; cbn [res_outcome res_trace res_world omap list_omap ev_connect ev_port ev_request ev_log ev_write_answer app method returnAxiosResponse returnFullAxiosResponse].
  all: rewrite ?app_nil_r; repeat match goal with u : unit |- _ => destruct u end.
  all: (split; [reflexivity|]).
  all: try (left; eexists; repeat split; reflexivity).
  all: right; eexists _, _, _; do 5 (split; [reflexivity|]).
  all: try (right; eexists _, _, _; repeat split; reflexivity).
  all: left; split; [reflexivity|]; split; [repeat constructor|].
  all: rewrite ?Edetails; cbv beta iota; rewrite ?Edetails0; reflexivity.
Qed.
End More.

Lemma upper_ascii_slash (c : ascii) :
  Ascii.eqb (upper_ascii c) "/" = Ascii.eqb c "/".
Proof. destruct c as [[] [] [] [] [] [] [] []]; vm_compute; reflexivity. Qed.

Lemma has_char_slash_toUpperCase (s : string) :
  has_char "/" (toUpperCase s) = has_char "/" s.
Proof.
  induction s as [|c s IH]; [reflexivity|].
  unfold toUpperCase in *. cbn [map_string has_char].
  now rewrite upper_ascii_slash, IH.
Qed.

Lemma before_request_notices (line : string) (n : nat) (rest : list event) :
  before_request (replicate n (Ev (ConsoleLog line) tt) ++ rest)
  = (replicate n (Ev (ConsoleLog line) tt) ++ before_request rest)%list.
Proof. induction n as [|n IH]; [reflexivity|]. simpl. now rewrite IH. Qed.

Lemma from_request_notices (line : string) (n : nat) (rest : list event) :
  from_request (replicate n (Ev (ConsoleLog line) tt) ++ rest) = from_request rest.
Proof. induction n as [|n IH]; [reflexivity|]. exact IH. Qed.

Section Derived.
Context `{Runtime} {W : Type} (h : handler W).

Lemma main_request_run (o : request_options) (fuel : nat) (w : W) :
  res_outcome (run h (main (CmdRequest o) fuel) w)
    = match res_outcome (run h (request_cmd o) w) return outcome unit with
      | Returned _ => Exited
      | Thrown e => Thrown e
      | Exited => Exited
      | StillRunning => StillRunning
      end
  ∧ res_trace (run h (main (CmdRequest o) fuel) w)
    = res_trace (run h (request_cmd o) w).
Proof. exact (run_then_exit h (request_cmd o) w). Qed.

Lemma legacy_main_request_run (o : request_options) (fuel : nat) (w : W) :
  res_outcome (run h (Legacy.main (CmdRequest o) fuel) w)
    = match res_outcome (run h (Legacy.request_cmd o) w) return outcome unit with
      | Returned _ => Exited
      | Thrown e => Thrown e
      | Exited => Exited
      | StillRunning => StillRunning
      end
  ∧ res_trace (run h (Legacy.main (CmdRequest o) fuel) w)
    = res_trace (run h (Legacy.request_cmd o) w).
Proof. exact (run_then_exit h (Legacy.request_cmd o) w). Qed.

End Derived.

(** X8: when [fs.writeFile] is rejected the script dies of that rejection
    and has printed nothing about the answer of the request: its output ends
    with the [Sending] line. *)
Theorem request_write_failure_hides_the_result `{Runtime} {W : Type}
    (h : handler W) (w : W) (o : request_options) (fuel : nat)
    (p c reason : string) :
  write_answers (res_trace (run h (main (CmdRequest o) fuel) w))
    = [(p, c, Rejected reason)] →
  res_outcome (run h (main (CmdRequest o) fuel) w) = Thrown (ExternalError reason)
  ∧ ∃ n (port : Z),
      logs (res_trace (run h (main (CmdRequest o) fuel) w))
      = (replicate n "[hasagi] Waiting for League of Legends client..."
         ++ ["[hasagi] Sending '" +:+ toUpperCase (o_method o)
               +:+ "' request to 'https://127.0.0.1:"
               +:+ pretty port +:+ o_path o +:+ "'..."])%list.
Proof.
  destruct (main_request_run h o fuel w) as [Hout Htr]. rewrite Hout, Htr.
  clear Hout Htr. intros Hw.
  destruct (request_cmd_stdout h o w)
    as (n & _ & [(t & _ & _ & Hnone & _)
                |(port & cfg & answer & _ & _ & _ & _ & _ &
                  [(_ & Hall & _)|(p' & c' & reason' & Hthrown & Hw' & Hlogs)])]).
  - rewrite Hnone in Hw. discriminate.
  - rewrite Hw in Hall. apply Forall_cons_1 in Hall as [Hbad _]. discriminate.
  - rewrite Hw' in Hw. injection Hw as -> -> ->.
    rewrite Hthrown. split; [reflexivity|]. eauto.
Qed.

(** X9: when [request] reaches [process.exit()] its output is exactly: one
    notice per failed connection attempt, the [Sending] line with the
    upper-cased method, the port and the path, and then the lines of the
    result: status and pretty body for a response; status, code, message and
    the details, if any, for an [LCUError]; code and message, each with its
    default, for a [RequestError]. *)
Theorem request_stdout_on_completion `{Runtime} {W : Type} (h : handler W)
    (w : W) (o : request_options) (fuel : nat) :
  res_outcome (run h (main (CmdRequest o) fuel) w) = Exited →
  ∃ n (port : Z) cfg answer,
    connects (res_trace (run h (main (CmdRequest o) fuel) w)) = [n]
    ∧ ports (res_trace (run h (main (CmdRequest o) fuel) w)) = [port]
    ∧ requests (res_trace (run h (main (CmdRequest o) fuel) w)) = [(cfg, answer)]
    ∧ logs (res_trace (run h (main (CmdRequest o) fuel) w))
      = (replicate n "[hasagi] Waiting for League of Legends client..."
         ++ ["[hasagi] Sending '" +:+ toUpperCase (o_method o)
               +:+ "' request to 'https://127.0.0.1:"
               +:+ pretty port +:+ o_path o +:+ "'..."]
         ++ match answer with
            | inl res =>
                ["[hasagi] Received response with status code '"
                   +:+ pretty (status res) +:+ "'.";
                 "[hasagi] Response: " +:+ JSON_stringify (Plain (data res)) 4]
            | inr (RejectLCU e) =>
                ["[hasagi] Received response with non-success status code '"
                   +:+ pretty (lcu_statusCode e) +:+ "'.";
                 "[hasagi] Error code: '" +:+ lcu_errorCode e +:+ "'.";
                 "[hasagi] Error message: '" +:+ lcu_message e +:+ "'"]
                ++ details_line e
            | inr (RejectRequest e) =>
                ["[hasagi] " +:+ default "RequestError" (req_errorCode e) +:+ ": "
                   +:+ default "An error occurred" (req_message e)]
            end)%list.
Proof.
  destruct (main_request_run h o fuel w) as [Hout Htr]. rewrite Hout, Htr.
  clear Hout Htr. intros Hexit.
  destruct (request_cmd_stdout h o w)
    as (n & Hn & [(t & Hthrown & _)
                 |(port & cfg & answer & Hport & Hreq & _ & _ & _ &
                   [(_ & _ & Hlogs)|(p' & c' & reason' & Hthrown & _)])]).
  - rewrite Hthrown in Hexit. discriminate.
  - exists n, port, cfg, answer. auto.
  - rewrite Hthrown in Hexit. discriminate.
Qed.


(** X11: when [--out] is an existing directory, what is written goes to
    [path.join] of that directory and of a name that holds a slash only if
    the method does: the slashes of the request path never reach the file
    name. *)
Theorem request_file_stays_in_the_directory `{Runtime} {W : Type} (h : handler W)
    (w : W) (o : request_options) (fuel : nat) (s : string) :
  o_out o = Some s →
  stats (res_trace (run h (main (CmdRequest o) fuel) w))
    = [(or_cwd s, Resolved true)] →
  Forall (λ written,
            ∃ name, written.1 = path_join (or_cwd s) name
                    ∧ has_char "/" name = has_char "/" (o_method o))
    (writes (res_trace (run h (main (CmdRequest o) fuel) w))).
Proof.
  destruct (main_request_run h o fuel w) as [_ Htr]. rewrite Htr. clear Htr.
  intros Hout Hstat.
  assert (Hc := request_cmd_out h o w). cbv zeta in Hc. rewrite Hout in Hc.
  destruct Hc as [(Hs & _)|(a & c & Hs & Hw)]; rewrite Hs in Hstat; [discriminate|].
  injection Hstat as ->. cbv beta iota delta [directory_or_false] in Hw.
  destruct Hw as (now & _ & ->). repeat constructor.
  eexists. split; [reflexivity|].
  rewrite request_file_name_slash.
  apply has_char_slash_toUpperCase.
Qed.

(** X13: in both scripts [fs.stat] is asked before the request is sent, and
    the clock is read and the file written only after it; no [fs.stat]
    follows the request. *)
Theorem request_asks_stat_first_and_writes_last `{Runtime} {W : Type}
    (h : handler W) (w : W) (o : request_options) (fuel : nat) :
  (stats (from_request (res_trace (run h (main (CmdRequest o) fuel) w))) = []
   ∧ writes (before_request (res_trace (run h (main (CmdRequest o) fuel) w))) = []
   ∧ clock_reads (before_request (res_trace (run h (main (CmdRequest o) fuel) w)))
     = [])
  ∧ (stats (from_request (res_trace (run h (Legacy.main (CmdRequest o) fuel) w)))
     = []
     ∧ writes (before_request
                 (res_trace (run h (Legacy.main (CmdRequest o) fuel) w))) = []
     ∧ clock_reads (before_request
                      (res_trace (run h (Legacy.main (CmdRequest o) fuel) w)))
       = []).
Proof.
  destruct (main_request_run h o fuel w) as [_ Htr]. rewrite Htr. clear Htr.
  destruct (legacy_main_request_run h o fuel w) as [_ Htr]. rewrite Htr. clear Htr.
  split.
  - unfold request_cmd. after_connect_with h n w1.
    cbn [res_outcome res_trace res_world app before_request from_request is_request].
    rewrite before_request_notices, from_request_notices.
    unfold stats, writes, clock_reads.
    cbn [ev_stat ev_write ev_clock omap list_omap].
    rewrite ?omap_app, ?omap_replicate.
    cbn [ev_stat ev_write ev_clock omap list_omap app].
    destruct o as [m p b q out]; cbn [o_method o_path o_body o_query o_out].
    destruct b as [tb|], q as [tq|], out as [s|].
    all: focus_run h P; exec h; subst P; cbv beta; simpl; auto.
  - unfold Legacy.request_cmd. after_connect_with h n w1.
    cbn [res_outcome res_trace res_world app before_request from_request is_request].
    rewrite before_request_notices, from_request_notices.
    unfold stats, writes, clock_reads.
    cbn [ev_stat ev_write ev_clock omap list_omap].
    rewrite ?omap_app, ?omap_replicate.
    cbn [ev_stat ev_write ev_clock omap list_omap app].
    destruct o as [m p b q out]; cbn [o_method o_path o_body o_query o_out].
    destruct out as [s|].
    all: focus_run h P; exec h; subst P; cbv beta; simpl; auto.
Qed.

(** X14: the older script does not read [--body] and [--query]: its run is
    the same whatever they are, it never dies of a [SyntaxError], and its
    request carries neither [data] nor [params]. *)
Theorem legacy_request_ignores_body_and_query `{Runtime} {W : Type}
    (h : handler W) (w : W) (o : request_options) (fuel : nat)
    (body query : option string) :
  run h (Legacy.main (CmdRequest (with_payload body query o)) fuel) w
    = run h (Legacy.main (CmdRequest o) fuel) w
  ∧ (∀ t, res_outcome (run h (Legacy.main (CmdRequest o) fuel) w)
          ≠ Thrown (SyntaxError t))
  ∧ Forall (λ call, cfg_data call.1 = None ∧ params call.1 = None)
      (requests (res_trace (run h (Legacy.main (CmdRequest o) fuel) w))).
Proof.
  split; [reflexivity|].
  destruct (legacy_main_request_run h o fuel w) as [Hout Htr]. rewrite Hout, Htr.
  clear Hout Htr.
  destruct (legacy_request_cmd_run h o w) as (a & Hreq & Hcase).
  rewrite Hreq. split; [|repeat constructor].
  intros t. destruct a as [res|rej].
  - destruct Hcase as [[->|[reason ->]] _]; discriminate.
  - destruct Hcase as [-> _]. discriminate.
Qed.

(** X15: the event callback of index.ts, with a target, makes one append of
    the record of the event; if the append resolves it prints the event and
    returns, if the append is rejected it throws that rejection and prints
    nothing.  Without a target it appends nothing and prints the event. *)
Theorem callback_prints_after_a_successful_append `{Runtime} {W : Type}
    (h : handler W) (w : W) (out : string) (isDirectory : bool) (event : json) :
  (∃ a,
     append_answers (res_trace (run h (on_event log (Some (or_cwd out)) isDirectory event) w))
       = [(listen_target (or_cwd out) isDirectory, event_record event, a)]
     ∧ match a with
       | Resolved _ =>
           res_outcome (run h (on_event log (Some (or_cwd out)) isDirectory event) w)
             = Returned tt
           ∧ logs (res_trace (run h (on_event log (Some (or_cwd out)) isDirectory event) w))
             = ["[hasagi] Received event: " +:+ JSON_stringify (Plain event) 4]
       | Rejected reason =>
           res_outcome (run h (on_event log (Some (or_cwd out)) isDirectory event) w)
             = Thrown (ExternalError reason)
           ∧ logs (res_trace (run h (on_event log (Some (or_cwd out)) isDirectory event) w))
             = []
       end)
  ∧ res_outcome (run h (on_event log None isDirectory event) w) = Returned tt
  ∧ append_answers (res_trace (run h (on_event log None isDirectory event) w)) = []
  ∧ logs (res_trace (run h (on_event log None isDirectory event) w))
    = ["[hasagi] Received event: " +:+ JSON_stringify (Plain event) 4].
Proof.
  split.
  - unfold on_event. rewrite or_cwd_truthy. simpl.
    next_answer h. destruct a as [[]|reason]; simpl; [next_answer h|].
    + exists (Resolved tt). auto.
    + exists (Rejected reason). auto.
  - simpl. next_answer h. auto.
Qed.

Section ListenStdout.
Context `{Runtime} {W : Type} (h : handler W) (fmt : string → string).

Let print (text : string) : prog unit := trigger (ConsoleLog (fmt text)).
Let rejected (e : exn) : prog unit := trigger (CallbackRejected e).

Lemma run_deliver_logs (isDir : bool) (events : list json) (w : W) :
  logs (res_trace (run h (deliver (on_event print None isDir) events) w))
  = map (λ event, fmt ("Received event: " +:+ JSON_stringify (Plain event) 4))
      events.
Proof.
  revert w. induction events as [|event events IH]; intros w; [reflexivity|].
  change (deliver (on_event print None isDir) (event :: events))
    with (catch (on_event print None isDir event) rejected ;;;
          deliver (on_event print None isDir) events).
  rewrite run_bind.
  destruct (run_callback_silent h fmt isDir event w) as (Hret & _).
  change (λ text, trigger (ConsoleLog (fmt text))) with print in Hret.
  change (λ e, trigger (CallbackRejected e)) with rejected in Hret.
  rewrite Hret. cbv beta iota. cbn [res_trace].
  unfold logs in *. rewrite omap_app, IH.
  unfold on_event, print, rejected. simpl. reflexivity.
Qed.

Lemma run_idle_logs (isDir : bool) (fuel : nat) (w : W) :
  logs (res_trace
          (run h (while (Ret true) (await_delay 100 (on_event print None isDir)) fuel) w))
  = map (λ event, fmt ("Received event: " +:+ JSON_stringify (Plain event) 4))
      (delivered (res_trace
         (run h (while (Ret true) (await_delay 100 (on_event print None isDir)) fuel) w))).
Proof.
  revert w. induction fuel as [|fuel IH]; intros w; [reflexivity|].
  rewrite while_unfold.
  change (run h (c <- Ret true ;;
                 if c
                 then await_delay 100 (on_event print None isDir) ;;;
                      while (Ret true) (await_delay 100 (on_event print None isDir)) fuel
                 else Ret tt) w)
    with (let a := h _ (Delay 100) w in
          let r := run h (deliver (on_event print None isDir) a.1 ;;;
                          while (Ret true)
                            (await_delay 100 (on_event print None isDir)) fuel) a.2 in
          {| res_outcome := res_outcome r;
             res_trace := Ev (Delay 100) a.1 :: res_trace r;
             res_world := res_world r |}).
  destruct (h _ (Delay 100) w) as [events w1]. cbv zeta.
  cbn [fst snd res_outcome res_trace res_world].
  rewrite run_bind.
  destruct (run_deliver h fmt None isDir events w1 I) as (Hret & _ & Hdel & _).
  change (λ text, trigger (ConsoleLog (fmt text))) with print in Hret, Hdel.
  rewrite Hret. cbv beta iota. cbn [res_outcome res_trace res_world].
  unfold delivered, delays, logs in *.
  cbn [omap list_omap ev_delay ev_log].
  rewrite !omap_app, Hdel.
  fold (logs (res_trace (run h (deliver (on_event print None isDir) events) w1))).
  rewrite run_deliver_logs. unfold logs. rewrite IH.
  cbn [app map fst snd List.concat]. now rewrite map_app.
Qed.

Lemma listen_with_stdout (o : listen_options) (fuel : nat) (w : W) :
  l_out o = None →
  ∃ n,
    connects (res_trace (run h (listen_with print o fuel) w)) = [n]
    ∧ logs (res_trace (run h (listen_with print o fuel) w))
      = (replicate n (fmt "Waiting for League of Legends client...")
         ++ map (λ event, fmt ("Received event: " +:+ JSON_stringify (Plain event) 4))
             (delivered (res_trace (run h (listen_with print o fuel) w))))%list.
Proof.
  intros Hs. unfold listen_with. rewrite Hs, resolve_out_None.
  rewrite run_bind.
  destruct (run_connect_trace h (fmt "Waiting for League of Legends client...") w)
    as (n & Hret & Htr).
  change (trigger (ConsoleLog (fmt "Waiting for League of Legends client...")))
    with (print "Waiting for League of Legends client...") in Hret, Htr.
  rewrite Hret, Htr. clear Hret Htr.
  generalize
    (res_world (run h (connect (print "Waiting for League of Legends client...")) w)).
  intros w1. cbv beta iota. cbn [res_outcome res_trace res_world].
  cbn [is_directory bind run trigger].
  destruct (h _ (AddLCUEventListener (l_name o) (l_path o) (l_type o)) w1)
    as [[] w2].
  cbn [fst snd res_outcome res_trace res_world].
  exists n. unfold connects, delivered, delays.
  cbn [app omap list_omap ev_connect ev_delay].
  rewrite !omap_app, !omap_replicate.
  cbn [ev_connect ev_delay app omap list_omap].
  destruct (run_idle h fmt None false fuel w2 I) as (_ & _ & _ & Hloop).
  change (λ text, trigger (ConsoleLog (fmt text))) with print in Hloop.
  rewrite (omap_none is_loop_event ev_connect _ ltac:(chatter_none) Hloop).
  split; [reflexivity|].
  unfold logs. cbn [app omap list_omap ev_log]. rewrite !omap_app, omap_replicate.
  cbn [ev_log app omap list_omap].
  fold (logs (res_trace
     (run h (while (Ret true) (await_delay 100 (on_event print None false)) fuel) w2))).
  rewrite run_idle_logs. reflexivity.
Qed.

End ListenStdout.

(** X16: without [--out], [listen] prints, after the notices, one
    [Received event] line per delivered event, in the order of delivery, and
    nothing else; in both scripts. *)
Theorem listen_prints_every_event_once `{Runtime} {W : Type} (h : handler W)
    (w : W) (o : listen_options) (fuel : nat) :
  l_out o = None →
  (∃ n,
     connects (res_trace (run h (main (CmdListen o) fuel) w)) = [n]
     ∧ logs (res_trace (run h (main (CmdListen o) fuel) w))
       = (replicate n "[hasagi] Waiting for League of Legends client..."
          ++ map (λ event, "[hasagi] Received event: "
                             +:+ JSON_stringify (Plain event) 4)
              (delivered (res_trace (run h (main (CmdListen o) fuel) w))))%list)
  ∧ (∃ n,
       connects (res_trace (run h (Legacy.main (CmdListen o) fuel) w)) = [n]
       ∧ logs (res_trace (run h (Legacy.main (CmdListen o) fuel) w))
         = (replicate n "Waiting for League of Legends client..."
            ++ map (λ event, "Received event: " +:+ JSON_stringify (Plain event) 4)
                (delivered (res_trace (run h (Legacy.main (CmdListen o) fuel) w))))%list).
Proof.
  intros Hs. split.
  - change (main (CmdListen o) fuel)
      with (listen_with log o fuel ;;; (Exit : prog unit)).
    destruct (run_then_exit h (listen_with log o fuel) w) as [_ Htr].
    rewrite Htr. clear Htr.
    exact (listen_with_stdout h (λ t, "[hasagi] " +:+ t) o fuel w Hs).
  - change (Legacy.main (CmdListen o) fuel)
      with (listen_with Legacy.console_log o fuel ;;; (Exit : prog unit)).
    destruct (run_then_exit h (listen_with Legacy.console_log o fuel) w) as [_ Htr].
    rewrite Htr. clear Htr.
    exact (listen_with_stdout h (λ t, t) o fuel w Hs).
Qed.

(** X17: when the older script reaches [process.exit()] the request was
    answered with a response; its output is the notices, the line
    [Waiting for League client...], the [Sending] line with the lower-cased
    path, the status and the pretty response; with [--out] it has written the
    record of [statusCode] and [data] to the target or, for a directory, to
    the file named after the method, the lower-cased path and the
    timestamp. *)
Theorem legacy_request_on_success `{Runtime} {W : Type} (h : handler W) (w : W)
    (o : request_options) (fuel : nat) :
  res_outcome (run h (Legacy.main (CmdRequest o) fuel) w) = Exited →
  ∃ n (port : Z) cfg res,
    connects (res_trace (run h (Legacy.main (CmdRequest o) fuel) w)) = [n]
    ∧ requests (res_trace (run h (Legacy.main (CmdRequest o) fuel) w))
      = [(cfg, inl res)]
    ∧ logs (res_trace (run h (Legacy.main (CmdRequest o) fuel) w))
      = (replicate n "Waiting for League of Legends client..."
         ++ ["Waiting for League client...";
             "Sending '" +:+ toUpperCase (o_method o)
               +:+ "' request to 'https://127.0.0.1:"
               +:+ pretty port +:+ toLowerCase (o_path o) +:+ "'...";
             "Status code: " +:+ pretty (status res);
             "Response content: " +:+ JSON_stringify (Plain (data res)) 4])%list
    ∧ match o_out o with
      | None => writes (res_trace (run h (Legacy.main (CmdRequest o) fuel) w)) = []
      | Some s =>
          ∃ a,
            stats (res_trace (run h (Legacy.main (CmdRequest o) fuel) w))
              = [(or_cwd s, a)]
            ∧ if directory_or_false a
              then ∃ now,
                  clock_reads (res_trace (run h (Legacy.main (CmdRequest o) fuel) w))
                    = [now]
                  ∧ writes (res_trace (run h (Legacy.main (CmdRequest o) fuel) w))
                    = [(path_join (or_cwd s)
                          (toUpperCase (o_method o) +:+ "-"
                             +:+ replaceAll "/" "_"
                                   (substring1 (toLowerCase (o_path o)))
                             +:+ "-" +:+ pretty now +:+ ".json"),
                        JSON_stringify
                          (Plain (JObj [("statusCode", JNum (status res));
                                        ("data", data res)])) 4)]
              else writes (res_trace (run h (Legacy.main (CmdRequest o) fuel) w))
                   = [(or_cwd s,
                       JSON_stringify
                         (Plain (JObj [("statusCode", JNum (status res));
                                       ("data", data res)])) 4)]
      end.
Proof.
  destruct (legacy_main_request_run h o fuel w) as [Hout Htr]. rewrite Hout, Htr.
  clear Hout Htr.
  unfold Legacy.request_cmd. after_connect_with h n w1.
  cbn [res_outcome res_trace res_world].
  unfold connects, requests, logs, writes, stats, clock_reads.
  cbn [omap list_omap ev_connect ev_request ev_log ev_write ev_stat ev_clock app].
  rewrite ?omap_app, ?omap_replicate.
  cbn [omap list_omap ev_connect ev_request ev_log ev_write ev_stat ev_clock app].
  destruct o as [m p b q out]; cbn [o_method o_path o_body o_query o_out].
  destruct out as [s|].
  all: focus_run h P; exec h; subst P; cbv beta.
  all: cbn [res_outcome res_trace res_world omap list_omap ev_connect ev_request
              ev_log ev_write ev_stat ev_clock app].
  all: repeat match goal with u : unit |- _ => destruct u end.
  all: intros Hexit; try discriminate Hexit.
  all: eexists n, _, _, _; (split; [reflexivity|]); (split; [reflexivity|]);
       (split; [reflexivity|]).
  all: try reflexivity.
  all: eexists; (split; [reflexivity|]); cbn [directory_or_false]; eauto.
Qed.

(** ** The further properties on the sample world *)

Lemma schema_without_help_does_nothing_witness :
  res_outcome (run Sample.serve
                 (main (H := Sample.runtime) (CmdSchema (only_raw "api" None)) 0)
                 sample_without_help)
    = Thrown (ExternalError "ECONNREFUSED")
  ∧ List.length (res_trace (run Sample.serve
                              (main (H := Sample.runtime)
                                 (CmdSchema (only_raw "api" None)) 0)
                              sample_without_help)) = 1%nat.
Proof.
  apply (schema_without_help_does_nothing (H := Sample.runtime) Sample.serve
           sample_without_help (only_raw "api" None) 0 "ECONNREFUSED").
  vm_compute. reflexivity.
Defined.

Lemma request_write_failure_hides_the_result_witness :
  res_outcome (run Sample.serve
                 (main (H := Sample.runtime) (CmdRequest sample_request) 0)
                 sample_unwritable)
    = Thrown (ExternalError "EISDIR")
  ∧ ∃ n (port : Z),
      logs (res_trace (run Sample.serve
                         (main (H := Sample.runtime) (CmdRequest sample_request) 0)
                         sample_unwritable))
      = (replicate n "[hasagi] Waiting for League of Legends client..."
         ++ ["[hasagi] Sending '" +:+ toUpperCase "get"
               +:+ "' request to 'https://127.0.0.1:"
               +:+ pretty port +:+ "/a/B" +:+ "'..."])%list.
Proof.
  apply (request_write_failure_hides_the_result (H := Sample.runtime) Sample.serve
           sample_unwritable sample_request 0 "out/GET-a_B-17.json"
           (Sample.stringify
              (Plain (JObj [("statusCode", JNum 200); ("body", JObj [])])) 4)
           "EISDIR").
  vm_compute. reflexivity.
Defined.

Lemma request_stdout_on_completion_witness :
  ∃ n (port : Z) cfg answer,
    connects (res_trace (run Sample.serve
                           (main (H := Sample.runtime) (CmdRequest sample_request) 0)
                           Sample.start)) = [n]
    ∧ ports (res_trace (run Sample.serve
                          (main (H := Sample.runtime) (CmdRequest sample_request) 0)
                          Sample.start)) = [port]
    ∧ requests (res_trace (run Sample.serve
                             (main (H := Sample.runtime) (CmdRequest sample_request) 0)
                             Sample.start)) = [(cfg, answer)]
    ∧ logs (res_trace (run Sample.serve
                         (main (H := Sample.runtime) (CmdRequest sample_request) 0)
                         Sample.start))
      = (replicate n "[hasagi] Waiting for League of Legends client..."
         ++ ["[hasagi] Sending '" +:+ toUpperCase "get"
               +:+ "' request to 'https://127.0.0.1:"
               +:+ pretty port +:+ "/a/B" +:+ "'..."]
         ++ result_lines (H := Sample.runtime) answer)%list.
Proof.
  exact (request_stdout_on_completion (H := Sample.runtime) Sample.serve
           Sample.start sample_request 0 eq_refl).
Defined.

Lemma request_file_stays_in_the_directory_witness :
  Forall (λ written,
            ∃ name, written.1 = Sample.join (or_cwd "out") name
                    ∧ has_char "/" name = has_char "/" "get")
    (writes (res_trace (run Sample.serve
                          (main (H := Sample.runtime) (CmdRequest sample_request) 0)
                          Sample.start))).
Proof.
  apply (request_file_stays_in_the_directory (H := Sample.runtime) Sample.serve
           Sample.start sample_request 0 "out"); vm_compute; reflexivity.
Defined.

Lemma listen_prints_every_event_once_witness :
  ∃ n,
    connects (res_trace (run Sample.serve
                           (main (H := Sample.runtime)
                              (CmdListen sample_listen_stdout) 4)
                           Sample.start)) = [n]
    ∧ logs (res_trace (run Sample.serve
                         (main (H := Sample.runtime)
                            (CmdListen sample_listen_stdout) 4)
                         Sample.start))
      = (replicate n "[hasagi] Waiting for League of Legends client..."
         ++ map (λ event, "[hasagi] Received event: "
                            +:+ Sample.stringify (Plain event) 4)
             (delivered (res_trace (run Sample.serve
                                      (main (H := Sample.runtime)
                                         (CmdListen sample_listen_stdout) 4)
                                      Sample.start))))%list.
Proof.
  exact (proj1 (listen_prints_every_event_once (H := Sample.runtime) Sample.serve
                  Sample.start sample_listen_stdout 4 eq_refl)).
Defined.

Lemma legacy_request_on_success_witness :
  ∃ n (port : Z) cfg res,
    connects (res_trace (run Sample.serve
                           (Legacy.main (H := Sample.runtime)
                              (CmdRequest sample_request) 0)
                           Sample.start)) = [n]
    ∧ requests (res_trace (run Sample.serve
                             (Legacy.main (H := Sample.runtime)
                                (CmdRequest sample_request) 0)
                             Sample.start)) = [(cfg, inl res)]
    ∧ logs (res_trace (run Sample.serve
                         (Legacy.main (H := Sample.runtime)
                            (CmdRequest sample_request) 0)
                         Sample.start))
      = (replicate n "Waiting for League of Legends client..."
         ++ ["Waiting for League client...";
             "Sending '" +:+ toUpperCase "get"
               +:+ "' request to 'https://127.0.0.1:"
               +:+ pretty port +:+ toLowerCase "/a/B" +:+ "'...";
             "Status code: " +:+ pretty (status res);
             "Response content: " +:+ Sample.stringify (Plain (data res)) 4])%list.
Proof.
  destruct (legacy_request_on_success (H := Sample.runtime) Sample.serve
              Sample.start sample_request 0 eq_refl)
    as (n & port & cfg & res & Hn & Hreq & Hlogs & _).
  exists n, port, cfg, res. auto.
Defined.
